(** * The wallet dashboard of [src/app/dashboard/page.tsx]

    A shallow embedding of the dashboard component: its React state, the two
    form handlers [handleAddWallet] and [handleCreateWallet], and the
    portfolio figures computed on every render ([totalBalance], [totalChange],
    [totalChangePercent]).  JavaScript numbers are IEEE 754 binary64 values,
    modelled by the kernel's primitive floats. *)

From Stdlib Require Import ZArith List String Ascii Bool Lia.
From Stdlib Require Import Floats DecimalString DecimalPos DecimalZ.
Import ListNotations.

Local Open Scope string_scope.
Local Open Scope list_scope.

(** ** JavaScript values used by the page *)

Module Js.

(** A JavaScript number. *)
Definition number : Type := float.

(** What a [throw] carries: an [Error] object with its message, or any other
    value (the page only asks [error instanceof Error]). *)
Inductive exn : Type :=
| Error (message : string)
| Thrown (value : string).

(** How an awaited call ends: with a value, or by throwing. *)
Inductive completion (A : Type) : Type :=
| Ok (value : A)
| Throw (error : exn).
Arguments Ok {A} value.
Arguments Throw {A} error.

(** [!s] is true exactly for the empty string. *)
Definition truthy (s : string) : bool := negb (s =? "").

(** Truthiness of a property that may be [undefined]. *)
Definition truthy_opt (o : option string) : bool :=
  match o with
  | Some s => truthy s
  | None => false
  end.

(** [n.toString()] for an integral number, as in [Date.now().toString()]. *)
Definition toString (n : Z) : string := NilZero.string_of_int (Z.to_int n).

(** *** [Number.parseFloat]

    Strings are byte strings (UTF-8).  [parseFloat] drops leading white
    space, reads the longest prefix that is a [StrDecimalLiteral] and rounds
    its mathematical value to the nearest binary64, ties to even; with no
    such prefix the result is [NaN]. *)

(** [StrWhiteSpaceChar]: white space and line terminators, in UTF-8. *)
Definition white_space : list string :=
  List.map (fun bytes => string_of_list_ascii (List.map ascii_of_nat bytes))
    [ [9]; [10]; [11]; [12]; [13]; [32];
      [194; 160]; [225; 154; 128];
      [226; 128; 128]; [226; 128; 129]; [226; 128; 130]; [226; 128; 131];
      [226; 128; 132]; [226; 128; 133]; [226; 128; 134]; [226; 128; 135];
      [226; 128; 136]; [226; 128; 137]; [226; 128; 138];
      [226; 128; 168]; [226; 128; 169]; [226; 128; 175];
      [226; 129; 159]; [227; 128; 128]; [239; 187; 191] ]%nat.

Fixpoint drop_prefix (p s : string) : option string :=
  match p, s with
  | EmptyString, _ => Some s
  | String a p', String b s' => if Ascii.eqb a b then drop_prefix p' s' else None
  | String _ _, EmptyString => None
  end.

Fixpoint drop_any (ps : list string) (s : string) : option string :=
  match ps with
  | [] => None
  | p :: ps' =>
      match drop_prefix p s with
      | Some r => Some r
      | None => drop_any ps' s
      end
  end.

Fixpoint trim_start (fuel : nat) (s : string) : string :=
  match fuel with
  | O => s
  | S fuel' =>
      match drop_any white_space s with
      | Some r => trim_start fuel' r
      | None => s
      end
  end.

Definition digit_value (c : ascii) : option Z :=
  let n := N_of_ascii c in
  if ((48 <=? n) && (n <=? 57))%N then Some (Z.of_N n - 48)%Z else None.

(** [DecimalDigits], possibly none: the value read onto [acc], how many
    digits were read, and what follows them. *)
Fixpoint digits (s : string) (acc : Z) (count : Z) : Z * Z * string :=
  match s with
  | String c s' =>
      match digit_value c with
      | Some d => digits s' (10 * acc + d)%Z (count + 1)%Z
      | None => (acc, count, s)
      end
  | EmptyString => (acc, count, s)
  end.

(** An optional sign: whether it was [-], and the rest. *)
Definition sign (s : string) : bool * string :=
  match s with
  | String "+" s' => (false, s')
  | String "-" s' => (true, s')
  | _ => (false, s)
  end.

(** [ExponentPart], when one follows: [e] or [E], an optional sign and at
    least one digit.  Otherwise the exponent is 0 and nothing is read. *)
Definition exponent_part (s : string) : Z :=
  match s with
  | String c s' =>
      if (Ascii.eqb c "e" || Ascii.eqb c "E")%bool then
        let '(neg, s'') := sign s' in
        let '(e, n, _) := digits s'' 0%Z 0%Z in
        if (n =? 0)%Z then 0%Z else if neg then (- e)%Z else e
      else 0%Z
  | EmptyString => 0%Z
  end.

(** The binary64 nearest to [m * 10 ^ e10] ([m] non-negative), signed. *)
Definition of_decimal (neg : bool) (m e10 : Z) : number :=
  if (m =? 0)%Z then (if neg then neg_zero else zero)
  else if (0 <=? e10)%Z then
    SF2Prim (binary_normalize prec emax
               (if neg then - (m * 10 ^ e10) else m * 10 ^ e10)%Z 0%Z neg)
  else
    SF2Prim (SFdiv prec emax
               (S754_finite neg (Z.to_pos m) 0%Z)
               (S754_finite false (Z.to_pos (10 ^ (- e10))) 0%Z)).

Definition parseFloat (input : string) : number :=
  let trimmed := trim_start (String.length input) input in
  let '(neg, s) := sign trimmed in
  match drop_prefix "Infinity" s with
  | Some _ => if neg then neg_infinity else infinity
  | None =>
      let '(int_part, int_count, after_int) := digits s 0%Z 0%Z in
      let '(mantissa, frac_count, after_frac) :=
        match after_int with
        | String "." s' => digits s' int_part 0%Z
        | _ => (int_part, 0%Z, after_int)
        end in
      if ((int_count =? 0) && (frac_count =? 0))%Z then nan
      else of_decimal neg mantissa (exponent_part after_frac - frac_count)
  end.

End Js.

(** ** Types of the page *)

Inductive Network : Type := ethereum | bnb.

(** A network name is a non-empty string literal, so [!network] is false. *)
Definition Network_truthy (n : Network) : bool := true.

Module Token.
Record t : Type := mk {
  symbol : string;
  name : string;
  balance : Js.number;
  balanceUSD : Js.number;
  price : Js.number;
  change24h : Js.number
}.
End Token.

Module Transaction.
Inductive direction : Type := send | receive.
Inductive state : Type := pending | confirmed | failed.
Record t : Type := mk {
  id : string;
  type : direction;
  amount : Js.number;
  symbol : string;
  to : option string;
  from : option string;
  timestamp : Js.number;
  status : state;
  hash : string
}.
End Transaction.

(** [WalletType] of [@/lib/accountDb]: the page's [Wallet] interface with the
    two optional sealed secrets that [handleCreateWallet] fills in.  [Blob] is
    what [encryptPrivateKey] returns. *)
Module Wallet.
Record t (Blob : Type) : Type := mk {
  id : string;
  name : string;
  address : string;
  network : Network;
  balance : Js.number;
  balanceUSD : Js.number;
  change24h : Js.number;
  changePercent24h : Js.number;
  tokens : list Token.t;
  transactions : list Transaction.t;
  encryptedPrivateKey : option Blob;
  encryptedMnemonic : option Blob
}.
Arguments mk {Blob}.
Arguments id {Blob}.
Arguments name {Blob}.
Arguments address {Blob}.
Arguments network {Blob}.
Arguments balance {Blob}.
Arguments balanceUSD {Blob}.
Arguments change24h {Blob}.
Arguments changePercent24h {Blob}.
Arguments tokens {Blob}.
Arguments transactions {Blob}.
Arguments encryptedPrivateKey {Blob}.
Arguments encryptedMnemonic {Blob}.
End Wallet.

(** What [cryptoWebApiClient.createWallet] resolves to, as far as the page
    reads it; [key] and [mnemonic] may be missing. *)
Module Generated.
Record t : Type := mk {
  address : string;
  key : option string;
  mnemonic : option string
}.
End Generated.

(** The add-wallet form. *)
Module NewWalletForm.
Record t : Type := mk {
  name : string;
  address : string;
  network : Network;
  balance : string;
  balanceUSD : string
}.
Definition empty : t := mk "" "" ethereum "" "".
End NewWalletForm.

(** The create-wallet form. *)
Module CreateWalletForm.
Record t : Type := mk {
  name : string;
  network : Network;
  passphrase : string
}.
Definition empty : t := mk "" ethereum "".
End CreateWalletForm.

(** What the success dialog shows: the state variable [newlyCreatedWallet]. *)
Module NewlyCreated.
Record t : Type := mk {
  address : string;
  privateKey : string;
  mnemonic : option string;
  network : Network;
  name : string
}.
End NewlyCreated.

(** ** The modules the page imports *)

(** [@/lib/crypto].  Sealing draws on a source of randomness, [Entropy],
    threaded through the calls. *)
Class Crypto (Blob Entropy : Type) : Type := {
  encryptPrivateKey :
    string -> string -> Entropy -> Js.completion Blob * Entropy
}.

(** [@/lib/accountDb], over the contents [Db] of the opened database. *)
Class AccountDb (Blob Db : Type) : Type := {
  saveWallet : Db -> Wallet.t Blob -> Js.completion Db;
  getAllWallets : Db -> Js.completion (list (Wallet.t Blob))
}.

(** ** The component and its surroundings *)

Section Dashboard.

Context {Blob Db Entropy : Type}.
Context {crypto : Crypto Blob Entropy} {accountDb : AccountDb Blob Db}.

Local Abbreviation WalletType := (Wallet.t Blob).

(** The [useState] variables of [DashboardPage]. *)
Record State : Type := mkState {
  wallets : list WalletType;
  selectedWallet : option WalletType;
  showAddModal : bool;
  showCreateModal : bool;
  showSuccessModal : bool;
  balanceVisible : bool;
  newlyCreatedWallet : option NewlyCreated.t;
  newWalletForm : NewWalletForm.t;
  createWalletForm : CreateWalletForm.t;
  isCreatingWallet : bool
}.

(** The state of a freshly mounted component. *)
Definition initialState : State :=
  {| wallets := [];
     selectedWallet := None;
     showAddModal := false;
     showCreateModal := false;
     showSuccessModal := false;
     balanceVisible := true;
     newlyCreatedWallet := None;
     newWalletForm := NewWalletForm.empty;
     createWalletForm := CreateWalletForm.empty;
     isCreatingWallet := false |}.

(** What a handler does that can be observed from outside the component. *)
Inductive Event : Type :=
| CreateWalletCall (network : Network)
| EncryptCall (plaintext passphrase : string)
| SaveWalletCall (wallet : WalletType)
| GetAllWalletsCall
| ConsoleLog (response : Generated.t)
| ConsoleError (label : string) (error : Js.exn)
| Alert (message : string).

(** Everything outside the component: whether [useAccountStore] hands out a
    database ([db] is [null] until one is open), what that database holds,
    the clock, the randomness
    the cipher draws on, the generation provider's answer per network, and
    the events so far, oldest first. *)
Record World : Type := mkWorld {
  db : bool;
  database : Db;
  now : Z;
  entropy : Entropy;
  provider : Network -> Js.completion Generated.t;
  trace : list Event
}.

(** A handler runs on the state being built by the [set...] calls and on
    the world; what it reads of the component, it reads from the render it
    was created in (its closure), passed as an argument. *)
Definition Sys : Type := State * World.
Definition Task (A : Type) : Type := Sys -> Js.completion A * Sys.

Definition ret {A} (a : A) : Task A := fun sys => (Js.Ok a, sys).

Definition bind {A B} (t : Task A) (k : A -> Task B) : Task B :=
  fun sys =>
    match t sys with
    | (Js.Ok a, sys') => k a sys'
    | (Js.Throw e, sys') => (Js.Throw e, sys')
    end.

Definition throw {A} (e : Js.exn) : Task A := fun sys => (Js.Throw e, sys).

(** [try { body } catch (error) { handler }] *)
Definition try_catch {A} (body : Task A) (handler : Js.exn -> Task A) : Task A :=
  fun sys =>
    match body sys with
    | (Js.Ok a, sys') => (Js.Ok a, sys')
    | (Js.Throw e, sys') => handler e sys'
    end.

(** [try { body } finally { cleanup }] *)
Definition try_finally {A} (body : Task A) (cleanup : Task unit) : Task A :=
  fun sys =>
    let '(r, sys') := body sys in
    match cleanup sys' with
    | (Js.Ok _, sys'') => (r, sys'')
    | (Js.Throw e, sys'') => (Js.Throw e, sys'')
    end.

Definition emit (ev : Event) : Task unit :=
  fun '(st, w) =>
    (Js.Ok tt,
     (st, {| db := db w; database := database w; now := now w;
             entropy := entropy w; provider := provider w;
             trace := trace w ++ [ev] |})).

Definition modify (f : State -> State) : Task unit :=
  fun '(st, w) => (Js.Ok tt, (f st, w)).

Declare Scope task_scope.
Delimit Scope task_scope with task.
Notation "x <- t ;; k" := (bind t (fun x => k))
  (at level 61, t at next level, right associativity) : task_scope.
Notation "t ;; k" := (bind t (fun _ => k))
  (at level 61, right associativity) : task_scope.
Local Open Scope task_scope.

(** *** Calls out of the component *)

(** [Date.now()] *)
Definition Date_now : Task Z := fun '(st, w) => (Js.Ok (now w), (st, w)).

(** The [db] of the render, for the [!db] tests. *)
Definition useAccountStore_db : Task bool := fun '(st, w) => (Js.Ok (db w), (st, w)).

(** [await cryptoWebApiClient.createWallet({ network })] *)
Definition createWallet (network : Network) : Task Generated.t :=
  emit (CreateWalletCall network) ;;
  fun '(st, w) => (provider w network, (st, w)).

(** [await encryptPrivateKey(plaintext, passphrase)] *)
Definition encrypt (plaintext passphrase : string) : Task Blob :=
  emit (EncryptCall plaintext passphrase) ;;
  fun '(st, w) =>
    let '(r, entropy') := encryptPrivateKey plaintext passphrase (entropy w) in
    (r, (st, {| db := db w; database := database w; now := now w;
                entropy := entropy'; provider := provider w;
                trace := trace w |})).

(** [await saveWallet(db, wallet)] *)
Definition save (wallet : WalletType) : Task unit :=
  emit (SaveWalletCall wallet) ;;
  fun '(st, w) =>
    match saveWallet (database w) wallet with
    | Js.Ok database' =>
        (Js.Ok tt,
         (st, {| db := db w; database := database'; now := now w;
                 entropy := entropy w; provider := provider w;
                 trace := trace w |}))
    | Js.Throw e => (Js.Throw e, (st, w))
    end.

(** [await getAllWallets(db)] *)
Definition getAll : Task (list WalletType) :=
  emit GetAllWalletsCall ;;
  fun '(st, w) => (getAllWallets (database w), (st, w)).

Definition console_log (response : Generated.t) : Task unit :=
  emit (ConsoleLog response).

Definition console_error (label : string) (error : Js.exn) : Task unit :=
  emit (ConsoleError label error).

Definition alert (message : string) : Task unit := emit (Alert message).

(** *** State setters *)

Definition setWallets (v : list WalletType) : Task unit :=
  modify (fun st =>
    {| wallets := v;
       selectedWallet := selectedWallet st;
       showAddModal := showAddModal st;
       showCreateModal := showCreateModal st;
       showSuccessModal := showSuccessModal st;
       balanceVisible := balanceVisible st;
       newlyCreatedWallet := newlyCreatedWallet st;
       newWalletForm := newWalletForm st;
       createWalletForm := createWalletForm st;
       isCreatingWallet := isCreatingWallet st |}).

Definition setSelectedWallet (v : option WalletType) : Task unit :=
  modify (fun st =>
    {| wallets := wallets st;
       selectedWallet := v;
       showAddModal := showAddModal st;
       showCreateModal := showCreateModal st;
       showSuccessModal := showSuccessModal st;
       balanceVisible := balanceVisible st;
       newlyCreatedWallet := newlyCreatedWallet st;
       newWalletForm := newWalletForm st;
       createWalletForm := createWalletForm st;
       isCreatingWallet := isCreatingWallet st |}).

Definition setShowAddModal (v : bool) : Task unit :=
  modify (fun st =>
    {| wallets := wallets st;
       selectedWallet := selectedWallet st;
       showAddModal := v;
       showCreateModal := showCreateModal st;
       showSuccessModal := showSuccessModal st;
       balanceVisible := balanceVisible st;
       newlyCreatedWallet := newlyCreatedWallet st;
       newWalletForm := newWalletForm st;
       createWalletForm := createWalletForm st;
       isCreatingWallet := isCreatingWallet st |}).

Definition setShowCreateModal (v : bool) : Task unit :=
  modify (fun st =>
    {| wallets := wallets st;
       selectedWallet := selectedWallet st;
       showAddModal := showAddModal st;
       showCreateModal := v;
       showSuccessModal := showSuccessModal st;
       balanceVisible := balanceVisible st;
       newlyCreatedWallet := newlyCreatedWallet st;
       newWalletForm := newWalletForm st;
       createWalletForm := createWalletForm st;
       isCreatingWallet := isCreatingWallet st |}).

Definition setShowSuccessModal (v : bool) : Task unit :=
  modify (fun st =>
    {| wallets := wallets st;
       selectedWallet := selectedWallet st;
       showAddModal := showAddModal st;
       showCreateModal := showCreateModal st;
       showSuccessModal := v;
       balanceVisible := balanceVisible st;
       newlyCreatedWallet := newlyCreatedWallet st;
       newWalletForm := newWalletForm st;
       createWalletForm := createWalletForm st;
       isCreatingWallet := isCreatingWallet st |}).

Definition setNewlyCreatedWallet (v : option NewlyCreated.t) : Task unit :=
  modify (fun st =>
    {| wallets := wallets st;
       selectedWallet := selectedWallet st;
       showAddModal := showAddModal st;
       showCreateModal := showCreateModal st;
       showSuccessModal := showSuccessModal st;
       balanceVisible := balanceVisible st;
       newlyCreatedWallet := v;
       newWalletForm := newWalletForm st;
       createWalletForm := createWalletForm st;
       isCreatingWallet := isCreatingWallet st |}).

Definition setNewWalletForm (v : NewWalletForm.t) : Task unit :=
  modify (fun st =>
    {| wallets := wallets st;
       selectedWallet := selectedWallet st;
       showAddModal := showAddModal st;
       showCreateModal := showCreateModal st;
       showSuccessModal := showSuccessModal st;
       balanceVisible := balanceVisible st;
       newlyCreatedWallet := newlyCreatedWallet st;
       newWalletForm := v;
       createWalletForm := createWalletForm st;
       isCreatingWallet := isCreatingWallet st |}).

Definition setCreateWalletForm (v : CreateWalletForm.t) : Task unit :=
  modify (fun st =>
    {| wallets := wallets st;
       selectedWallet := selectedWallet st;
       showAddModal := showAddModal st;
       showCreateModal := showCreateModal st;
       showSuccessModal := showSuccessModal st;
       balanceVisible := balanceVisible st;
       newlyCreatedWallet := newlyCreatedWallet st;
       newWalletForm := newWalletForm st;
       createWalletForm := v;
       isCreatingWallet := isCreatingWallet st |}).

Definition setIsCreatingWallet (v : bool) : Task unit :=
  modify (fun st =>
    {| wallets := wallets st;
       selectedWallet := selectedWallet st;
       showAddModal := showAddModal st;
       showCreateModal := showCreateModal st;
       showSuccessModal := showSuccessModal st;
       balanceVisible := balanceVisible st;
       newlyCreatedWallet := newlyCreatedWallet st;
       newWalletForm := newWalletForm st;
       createWalletForm := createWalletForm st;
       isCreatingWallet := v |}).

(** *** Calculations (recomputed on every render) *)

Definition totalBalance (wallets : list WalletType) : Js.number :=
  fold_left (fun sum wallet => (sum + Wallet.balanceUSD wallet)%float) wallets 0%float.

Definition totalChange (wallets : list WalletType) : Js.number :=
  fold_left (fun sum wallet => (sum + Wallet.change24h wallet)%float) wallets 0%float.

Definition totalChangePercent (wallets : list WalletType) : Js.number :=
  if (0 <? totalBalance wallets)%float
  then (totalChange wallets / (totalBalance wallets - totalChange wallets) * 100)%float
  else 0%float.

(** *** Event handlers

    Each takes the state of the render it was created in.  The form handlers
    start with [e.preventDefault()], which touches nothing modelled here. *)

(** The effect that loads the wallets once a database is there. *)
Definition loadWallets : Task unit :=
  has_db <- useAccountStore_db ;;
  if has_db then
    try_catch
      (loadedWallets <- getAll ;;
       setWallets loadedWallets)
      (fun error => console_error "Error loading wallets:" error)
  else ret tt.

Definition handleAddWallet (render : State) : Task unit :=
  let form := newWalletForm render in
  has_db <- useAccountStore_db ;;
  if negb (Js.truthy (NewWalletForm.name form))
     || negb (Js.truthy (NewWalletForm.address form))
     || negb (Js.truthy (NewWalletForm.balance form))
     || negb (Js.truthy (NewWalletForm.balanceUSD form))
     || negb has_db
  then ret tt
  else
    let balanceNum := Js.parseFloat (NewWalletForm.balance form) in
    let balanceUSDNum := Js.parseFloat (NewWalletForm.balanceUSD form) in
    t <- Date_now ;;
    let newWallet : WalletType :=
      {| Wallet.id := Js.toString t;
         Wallet.name := NewWalletForm.name form;
         Wallet.address := NewWalletForm.address form;
         Wallet.network := NewWalletForm.network form;
         Wallet.balance := balanceNum;
         Wallet.balanceUSD := balanceUSDNum;
         Wallet.change24h := 0%float;
         Wallet.changePercent24h := 0%float;
         Wallet.tokens := [];
         Wallet.transactions := [];
         Wallet.encryptedPrivateKey := None;
         Wallet.encryptedMnemonic := None |} in
    try_catch
      (save newWallet ;;
       setWallets (wallets render ++ [newWallet]) ;;
       setShowAddModal false ;;
       setNewWalletForm (NewWalletForm.mk "" "" ethereum "" ""))
      (fun error => console_error "Error saving wallet:" error).

Definition handleWalletSelect (wallet : WalletType) : Task unit :=
  setSelectedWallet (Some wallet).

Definition handleBackToList : Task unit := setSelectedWallet None.

(** The text of the [alert] in [handleCreateWallet]'s [catch]. *)
Definition creation_alert (error : Js.exn) : string :=
  "Error creating wallet2: " ++
  match error with
  | Js.Error message => message
  | Js.Thrown _ => "Unknown error"
  end.

Definition handleCreateWallet (render : State) : Task unit :=
  let form := createWalletForm render in
  has_db <- useAccountStore_db ;;
  if negb (Js.truthy (CreateWalletForm.name form))
     || negb (Network_truthy (CreateWalletForm.network form))
     || negb (Js.truthy (CreateWalletForm.passphrase form))
     || negb has_db
  then ret tt
  else
    setIsCreatingWallet true ;;
    try_finally
      (try_catch
         (newWallet <- createWallet (CreateWalletForm.network form) ;;
          key <- match Generated.key newWallet with
                 | Some key =>
                     if Js.truthy key then ret key
                     else console_log newWallet ;;
                          throw (Js.Error "Private key is missing in the wallet creation response")
                 | None =>
                     console_log newWallet ;;
                     throw (Js.Error "Private key is missing in the wallet creation response")
                 end ;;
          encryptedPrivateKey <- encrypt key (CreateWalletForm.passphrase form) ;;
          encryptedMnemonic <-
            match Generated.mnemonic newWallet with
            | Some mnemonic =>
                if Js.truthy mnemonic && true
                then sealed <- encrypt mnemonic (CreateWalletForm.passphrase form) ;;
                     ret (Some sealed)
                else ret None
            | None => ret None
            end ;;
          t <- Date_now ;;
          let walletData : WalletType :=
            {| Wallet.id := Js.toString t;
               Wallet.name := CreateWalletForm.name form;
               Wallet.address := Generated.address newWallet;
               Wallet.network := CreateWalletForm.network form;
               Wallet.balance := 0%float;
               Wallet.balanceUSD := 0%float;
               Wallet.change24h := 0%float;
               Wallet.changePercent24h := 0%float;
               Wallet.tokens := [];
               Wallet.transactions := [];
               Wallet.encryptedPrivateKey := Some encryptedPrivateKey;
               Wallet.encryptedMnemonic := encryptedMnemonic |} in
          save walletData ;;
          setWallets (wallets render ++ [walletData]) ;;
          setNewlyCreatedWallet
            (Some {| NewlyCreated.address := Generated.address newWallet;
                     NewlyCreated.privateKey := key;
                     NewlyCreated.mnemonic := Generated.mnemonic newWallet;
                     NewlyCreated.network := CreateWalletForm.network form;
                     NewlyCreated.name := CreateWalletForm.name form |}) ;;
          setShowCreateModal false ;;
          setShowSuccessModal true ;;
          setCreateWalletForm (CreateWalletForm.mk "" ethereum ""))
         (fun error =>
            console_error "Error creating wallet:" error ;;
            alert (creation_alert error)))
      (setIsCreatingWallet false).

(** The button of the success dialog, "I've Saved My Wallet Information". *)
Definition handleSuccessConfirm : Task unit :=
  setShowSuccessModal false ;;
  setNewlyCreatedWallet None.

(** [onOpenChange] of the success dialog: closing it any other way. *)
Definition handleSuccessOpenChange (open : bool) : Task unit :=
  setShowSuccessModal open.

(** A handler of the current render, run to completion. *)
Definition dispatch (handler : State -> Task unit) (sys : Sys) : Js.completion unit * Sys :=
  handler (fst sys) sys.

(** *** What the trace records *)

Definition saved (t : list Event) : list WalletType :=
  flat_map (fun ev => match ev with SaveWalletCall w => [w] | _ => [] end) t.

Definition sealed (t : list Event) : list (string * string) :=
  flat_map (fun ev => match ev with EncryptCall p k => [(p, k)] | _ => [] end) t.

Definition alerts (t : list Event) : list string :=
  flat_map (fun ev => match ev with Alert m => [m] | _ => [] end) t.

Definition console_errors (t : list Event) : list (string * Js.exn) :=
  flat_map (fun ev => match ev with ConsoleError l e => [(l, e)] | _ => [] end) t.

End Dashboard.

Arguments State : clear implicits.
Arguments Event : clear implicits.
Arguments World : clear implicits.
Arguments Sys : clear implicits.

(** ** The Wallet Record Store *)

(** Modelled from the spec: the Store behind [saveWallet] and [getAllWallets];
    [@/lib/accountDb] is not among the sources.  The spec gives
    [insert(record) -> Result<(), DuplicateId>], which rejects a record whose
    id is already present and leaves the collection as it was, and [listAll],
    which returns the records in insertion order. *)
Module Store.

Definition t (Blob : Type) : Type := list (Wallet.t Blob).

Definition ids {Blob} (s : t Blob) : list string := List.map Wallet.id s.

Definition has_id {Blob} (s : t Blob) (i : string) : bool :=
  existsb (fun r => Wallet.id r =? i) s.

Definition DuplicateId : Js.exn := Js.Error "DuplicateId".

Definition insert {Blob} (s : t Blob) (record : Wallet.t Blob) : Js.completion (t Blob) :=
  if has_id s (Wallet.id record) then Js.Throw DuplicateId
  else Js.Ok (s ++ [record]).

Definition listAll {Blob} (s : t Blob) : Js.completion (list (Wallet.t Blob)) :=
  Js.Ok s.

End Store.

#[export] Instance Store_AccountDb (Blob : Type) : AccountDb Blob (Store.t Blob) :=
  {| saveWallet := Store.insert; getAllWallets := Store.listAll |}.

(** ** A stand-in cipher *)

(** A cipher to run the handlers with: a blob names the nonce drawn for it,
    the text sealed and the passphrase it is sealed under; the entropy is the
    next nonce.  Successive calls give different blobs. *)
Module Box.

Record t : Type := mk {
  nonce : nat;
  content : string;
  lock : string
}.

Definition seal (plaintext passphrase : string) (next : nat) : Js.completion t * nat :=
  (Js.Ok (mk next plaintext passphrase), S next).

End Box.

#[export] Instance Box_Crypto : Crypto Box.t nat :=
  {| encryptPrivateKey := Box.seal |}.

(** ** The aggregate as the spec words it *)

Module Spec.

(** The sum of the first [n] terms of [f], taken in order. *)
Fixpoint Sigma (n : nat) (f : nat -> Js.number) : Js.number :=
  match n with
  | O => 0%float
  | S k => (Sigma k f + f k)%float
  end.

(** The field [field] of the [i]-th record. *)
Definition term {Blob} (field : Wallet.t Blob -> Js.number)
    (records : list (Wallet.t Blob)) (i : nat) : Js.number :=
  match nth_error records i with
  | Some r => field r
  | None => 0%float
  end.

Definition totalValue {Blob} (records : list (Wallet.t Blob)) : Js.number :=
  Sigma (List.length records) (term Wallet.balanceUSD records).

Definition totalChange {Blob} (records : list (Wallet.t Blob)) : Js.number :=
  Sigma (List.length records) (term Wallet.change24h records).

Definition totalChangePercent {Blob} (records : list (Wallet.t Blob)) : Js.number :=
  if (0 <? totalValue records)%float
  then (totalChange records / (totalValue records - totalChange records) * 100)%float
  else 0%float.

End Spec.

(** ** Sample inputs *)

Module Sample.

(** A tracked wallet with the given fiat balance and 24-hour change. *)
Definition tracked (id : string) (balanceUSD change24h : Js.number) : Wallet.t Box.t :=
  {| Wallet.id := id;
     Wallet.name := "W";
     Wallet.address := "0x0";
     Wallet.network := ethereum;
     Wallet.balance := 0%float;
     Wallet.balanceUSD := balanceUSD;
     Wallet.change24h := change24h;
     Wallet.changePercent24h := 0%float;
     Wallet.tokens := [];
     Wallet.transactions := [];
     Wallet.encryptedPrivateKey := None;
     Wallet.encryptedMnemonic := None |}.

(** The spec's aggregation example. *)
Definition portfolio : list (Wallet.t Box.t) :=
  [tracked "1" 100%float 10%float; tracked "2" 250%float (-5)%float].

(** A portfolio worth nothing the day before. *)
Definition overnight : list (Wallet.t Box.t) := [tracked "1" 100%float 100%float].

(** The provider stub of the spec's end-to-end example. *)
Definition generated : Generated.t :=
  {| Generated.address := "0xabc";
     Generated.key := Some "k1";
     Generated.mnemonic := Some "m1 m2 m3 m4 m5 m6 m7 m8 m9 m10 m11 m12" |}.

(** A provider answer without a key field. *)
Definition keyless : Generated.t :=
  {| Generated.address := "0xabc";
     Generated.key := None;
     Generated.mnemonic := None |}.

(** A world with an open database holding [records], a provider that answers
    [response], and nothing observed yet. *)
Definition world (records : Store.t Box.t) (response : Generated.t)
  : World Box.t (Store.t Box.t) nat :=
  {| db := true;
     database := records;
     now := 1700000000000;
     entropy := 0%nat;
     provider := fun _ => Js.Ok response;
     trace := [] |}.

(** The component showing [records], with the create form filled in as in the
    spec's example. *)
Definition creating (records : list (Wallet.t Box.t)) : State Box.t :=
  {| wallets := records;
     selectedWallet := None;
     showAddModal := false;
     showCreateModal := true;
     showSuccessModal := false;
     balanceVisible := true;
     newlyCreatedWallet := None;
     newWalletForm := NewWalletForm.empty;
     createWalletForm := CreateWalletForm.mk "W1" ethereum "pw123";
     isCreatingWallet := false |}.

(** The component showing [records], with the add form filled in. *)
Definition adding (records : list (Wallet.t Box.t)) (balance balanceUSD : string)
  : State Box.t :=
  {| wallets := records;
     selectedWallet := None;
     showAddModal := true;
     showCreateModal := false;
     showSuccessModal := false;
     balanceVisible := true;
     newlyCreatedWallet := None;
     newWalletForm := NewWalletForm.mk "W2" "0xdef" bnb balance balanceUSD;
     createWalletForm := CreateWalletForm.empty;
     isCreatingWallet := false |}.

(** The record that [handleCreateWallet] builds in [world [] generated]. *)
Definition created : Wallet.t Box.t :=
  {| Wallet.id := "1700000000000";
     Wallet.name := "W1";
     Wallet.address := "0xabc";
     Wallet.network := ethereum;
     Wallet.balance := 0%float;
     Wallet.balanceUSD := 0%float;
     Wallet.change24h := 0%float;
     Wallet.changePercent24h := 0%float;
     Wallet.tokens := [];
     Wallet.transactions := [];
     Wallet.encryptedPrivateKey := Some (Box.mk 0 "k1" "pw123");
     Wallet.encryptedMnemonic :=
       Some (Box.mk 1 "m1 m2 m3 m4 m5 m6 m7 m8 m9 m10 m11 m12" "pw123") |}.

(** The record that [handleAddWallet] builds from the spec's manual-add
    example. *)
Definition added : Wallet.t Box.t :=
  {| Wallet.id := "1700000000000";
     Wallet.name := "W2";
     Wallet.address := "0xdef";
     Wallet.network := bnb;
     Wallet.balance := 1.5%float;
     Wallet.balanceUSD := 300%float;
     Wallet.change24h := 0%float;
     Wallet.changePercent24h := 0%float;
     Wallet.tokens := [];
     Wallet.transactions := [];
     Wallet.encryptedPrivateKey := None;
     Wallet.encryptedMnemonic := None |}.

(** A tracked wallet that already has the id the clock of [world] gives. *)
Definition existing : Wallet.t Box.t :=
  tracked "1700000000000" 100%float 10%float.

End Sample.

(** ** The claims of the spec that the handlers are measured against *)

Section Claims.

Context {Blob Db Entropy : Type}.
Context {crypto : Crypto Blob Entropy} {accountDb : AccountDb Blob Db}.

Local Abbreviation Sys := (Sys Blob Db Entropy).
Local Abbreviation Outcome := (Js.completion unit * Sys)%type.

(** Between [before] and [after] the Store took [record] in: it is the one
    record handed to [saveWallet], and [saveWallet] answered with the
    database of [after]. *)
Definition inserted (before after : Sys) (record : Wallet.t Blob) : Prop :=
  saved (trace (snd after)) = saved (trace (snd before)) ++ [record] /\
  saveWallet (database (snd before)) record = Js.Ok (database (snd after)).

(** No record was handed to the Store and nothing changed in the database or
    in the list of wallets. *)
Definition untouched (before after : Sys) : Prop :=
  saved (trace (snd after)) = saved (trace (snd before)) /\
  database (snd after) = database (snd before) /\
  wallets (fst after) = wallets (fst before).

(** The caller learns of a failure: the handler throws, alerts or logs an
    error. *)
Definition surfaced (before : Sys) (outcome : Outcome) : Prop :=
  (exists e, fst outcome = Js.Throw e) \/
  alerts (trace (snd (snd outcome))) <> alerts (trace (snd before)) \/
  console_errors (trace (snd (snd outcome))) <> console_errors (trace (snd before)).

(** The spec's [InvalidInput]: the request fails before any Store call and
    the failure reaches the caller. *)
Definition fails_with_InvalidInput (before : Sys) (outcome : Outcome) : Prop :=
  untouched before (snd outcome) /\ surfaced before outcome.

(** The spec's handling of [DuplicateId]: a second [saveWallet] under another
    id, and nothing shown to the user. *)
Definition retried_with_fresh_id (before : Sys) (outcome : Outcome) : Prop :=
  alerts (trace (snd (snd outcome))) = alerts (trace (snd before)) /\
  exists first second rest,
    saved (trace (snd (snd outcome)))
    = saved (trace (snd before)) ++ first :: second :: rest /\
    Wallet.id first <> Wallet.id second.

(** The component still holds [secret] in the clear. *)
Definition retains_plaintext (st : State Blob) (secret : string) : Prop :=
  exists shown,
    newlyCreatedWallet st = Some shown /\
    (NewlyCreated.privateKey shown = secret \/
     NewlyCreated.mnemonic shown = Some secret).

(** The spec's one-time disclosure: once the creation is over, the component
    holds none of the plaintext secrets. *)
Definition disclosure_was_transient (st : State Blob) (response : Generated.t) : Prop :=
  forall secret,
    Generated.key response = Some secret \/ Generated.mnemonic response = Some secret ->
    ~ retains_plaintext st secret.

(** The cipher seals the mnemonic when the provider returned one, drawing on
    [entropy1] and leaving [entropy2]; otherwise nothing is sealed. *)
Definition seals_mnemonic (mnemonic : option string) (passphrase : string)
    (entropy1 : Entropy) (sealedMnemonic : option Blob) (entropy2 : Entropy) : Prop :=
  match mnemonic with
  | Some m =>
      if Js.truthy m
      then exists blob,
             encryptPrivateKey m passphrase entropy1 = (Js.Ok blob, entropy2) /\
             sealedMnemonic = Some blob
      else sealedMnemonic = None /\ entropy2 = entropy1
  | None => sealedMnemonic = None /\ entropy2 = entropy1
  end.

(** The record the spec has a creation commit: the provider's address, zero
    balances and changes, no tokens, no transactions, and the sealed secrets. *)
Definition assembled (st : State Blob) (w : World Blob Db Entropy)
    (response : Generated.t) (sealedKey : Blob) (sealedMnemonic : option Blob)
  : Wallet.t Blob :=
  {| Wallet.id := Js.toString (now w);
     Wallet.name := CreateWalletForm.name (createWalletForm st);
     Wallet.address := Generated.address response;
     Wallet.network := CreateWalletForm.network (createWalletForm st);
     Wallet.balance := 0%float;
     Wallet.balanceUSD := 0%float;
     Wallet.change24h := 0%float;
     Wallet.changePercent24h := 0%float;
     Wallet.tokens := [];
     Wallet.transactions := [];
     Wallet.encryptedPrivateKey := Some sealedKey;
     Wallet.encryptedMnemonic := sealedMnemonic |}.

(** The calls to the cipher for the mnemonic: one when there is one. *)
Definition mnemonic_calls (mnemonic : option string) (passphrase : string)
  : list (Event Blob) :=
  match mnemonic with
  | Some m => if Js.truthy m then [EncryptCall m passphrase] else []
  | None => []
  end.

(** The record the spec has a manual add commit: what the caller entered,
    the balances parsed, zeroed changes, no tokens, no transactions and no
    sealed secret. *)
Definition entered (st : State Blob) (w : World Blob Db Entropy) : Wallet.t Blob :=
  {| Wallet.id := Js.toString (now w);
     Wallet.name := NewWalletForm.name (newWalletForm st);
     Wallet.address := NewWalletForm.address (newWalletForm st);
     Wallet.network := NewWalletForm.network (newWalletForm st);
     Wallet.balance := Js.parseFloat (NewWalletForm.balance (newWalletForm st));
     Wallet.balanceUSD := Js.parseFloat (NewWalletForm.balanceUSD (newWalletForm st));
     Wallet.change24h := 0%float;
     Wallet.changePercent24h := 0%float;
     Wallet.tokens := [];
     Wallet.transactions := [];
     Wallet.encryptedPrivateKey := None;
     Wallet.encryptedMnemonic := None |}.

(** How a creation that got as far as [calls] and then met [error] ends: the
    error is logged and shown, the spinner is switched off, and the rest of
    the component is as it was. *)
Definition creation_failed (st : State Blob) (w : World Blob Db Entropy)
    (entropy' : Entropy) (calls : list (Event Blob)) (error : Js.exn) : Outcome :=
  (Js.Ok tt,
   ({| wallets := wallets st;
       selectedWallet := selectedWallet st;
       showAddModal := showAddModal st;
       showCreateModal := showCreateModal st;
       showSuccessModal := showSuccessModal st;
       balanceVisible := balanceVisible st;
       newlyCreatedWallet := newlyCreatedWallet st;
       newWalletForm := newWalletForm st;
       createWalletForm := createWalletForm st;
       isCreatingWallet := false |},
    {| db := db w;
       database := database w;
       now := now w;
       entropy := entropy';
       provider := provider w;
       trace := trace w ++ calls
                ++ [ConsoleError "Error creating wallet:" error;
                    Alert (creation_alert error)] |})).

(** Either handler leaves the Store alone, or hands it one record; the list
    of wallets grows by that record exactly when the Store takes it. *)
Definition one_insert_at_most (st : State Blob) (w : World Blob Db Entropy)
    (after : Sys) : Prop :=
  untouched (st, w) after \/
  exists record,
    saved (trace (snd after)) = saved (trace w) ++ [record] /\
    match saveWallet (database w) record with
    | Js.Ok database' =>
        database (snd after) = database' /\
        wallets (fst after) = wallets st ++ [record]
    | Js.Throw _ =>
        database (snd after) = database w /\
        wallets (fst after) = wallets st
    end.

End Claims.


(** ** Display helpers of the page *)

Module JsString.

(** Where [slice] puts an index: counted from the end when negative, and kept
    within the string. *)
Definition clamp (len i : Z) : Z :=
  if (i <? 0)%Z then Z.max (len + i) 0 else Z.min i len.

(** [s.slice(start, stop)], [stop] being optional; strings are byte
    strings, so this is [String.prototype.slice] on ASCII text. *)
Definition slice (s : string) (start : Z) (stop : option Z) : string :=
  let chars := list_ascii_of_string s in
  let len := Z.of_nat (List.length chars) in
  let from := clamp len start in
  let to := match stop with
            | Some e => clamp len e
            | None => len
            end in
  string_of_list_ascii (firstn (Z.to_nat (to - from)) (skipn (Z.to_nat from) chars)).

End JsString.

(** Format address for display. *)
Definition formatAddress (address : string) : string :=
  JsString.slice address 0%Z (Some 6%Z) ++ "..." ++ JsString.slice address (-4)%Z None.

(** ** The ways a handler can end *)

Section Outcomes.

Context {Blob Db Entropy : Type}.
Context {crypto : Crypto Blob Entropy} {accountDb : AccountDb Blob Db}.

(** The create form passes the guard of [handleCreateWallet]. *)
Definition create_submitted (st : State Blob) (w : World Blob Db Entropy) : bool :=
  Js.truthy (CreateWalletForm.name (createWalletForm st))
  && Js.truthy (CreateWalletForm.passphrase (createWalletForm st))
  && db w.

(** The add form passes the guard of [handleAddWallet]. *)
Definition add_submitted (st : State Blob) (w : World Blob Db Entropy) : bool :=
  Js.truthy (NewWalletForm.name (newWalletForm st))
  && Js.truthy (NewWalletForm.address (newWalletForm st))
  && Js.truthy (NewWalletForm.balance (newWalletForm st))
  && Js.truthy (NewWalletForm.balanceUSD (newWalletForm st))
  && db w.

(** How a creation ends once the Store has taken [walletData] in and
    answered [database']: the record is listed, the secrets are put up for
    the success dialog, the create dialog gives way to it and the form is
    cleared. *)
Definition creation_succeeded (st : State Blob) (w : World Blob Db Entropy)
    (response : Generated.t) (key : string) (walletData : Wallet.t Blob)
    (entropy' : Entropy) (database' : Db) (calls : list (Event Blob))
  : Js.completion unit * Sys Blob Db Entropy :=
  (Js.Ok tt,
   ({| wallets := wallets st ++ [walletData];
       selectedWallet := selectedWallet st;
       showAddModal := showAddModal st;
       showCreateModal := false;
       showSuccessModal := true;
       balanceVisible := balanceVisible st;
       newlyCreatedWallet :=
         Some {| NewlyCreated.address := Generated.address response;
                 NewlyCreated.privateKey := key;
                 NewlyCreated.mnemonic := Generated.mnemonic response;
                 NewlyCreated.network := CreateWalletForm.network (createWalletForm st);
                 NewlyCreated.name := CreateWalletForm.name (createWalletForm st) |};
       newWalletForm := newWalletForm st;
       createWalletForm := CreateWalletForm.mk "" ethereum "";
       isCreatingWallet := false |},
    {| db := db w;
       database := database';
       now := now w;
       entropy := entropy';
       provider := provider w;
       trace := trace w ++ calls |})).

(** The paths through [handleCreateWallet], each with the outcome it ends
    in: the guard, the provider, the key check, the two calls to the cipher
    and the Store. *)
Inductive creation_run (st : State Blob) (w : World Blob Db Entropy)
  : Js.completion unit * Sys Blob Db Entropy -> Prop :=
| run_not_submitted :
    create_submitted st w = false ->
    creation_run st w (Js.Ok tt, (st, w))
| run_provider_failed (e : Js.exn) :
    create_submitted st w = true ->
    provider w (CreateWalletForm.network (createWalletForm st)) = Js.Throw e ->
    creation_run st w
      (creation_failed st w (entropy w)
         [CreateWalletCall (CreateWalletForm.network (createWalletForm st))] e)
| run_no_key (response : Generated.t) :
    create_submitted st w = true ->
    provider w (CreateWalletForm.network (createWalletForm st)) = Js.Ok response ->
    Js.truthy_opt (Generated.key response) = false ->
    creation_run st w
      (creation_failed st w (entropy w)
         [CreateWalletCall (CreateWalletForm.network (createWalletForm st));
          ConsoleLog response]
         (Js.Error "Private key is missing in the wallet creation response"))
| run_key_unsealed (response : Generated.t) (key : string) (e : Js.exn)
    (entropy1 : Entropy) :
    create_submitted st w = true ->
    provider w (CreateWalletForm.network (createWalletForm st)) = Js.Ok response ->
    Generated.key response = Some key ->
    Js.truthy key = true ->
    encryptPrivateKey key (CreateWalletForm.passphrase (createWalletForm st)) (entropy w)
    = (Js.Throw e, entropy1) ->
    creation_run st w
      (creation_failed st w entropy1
         [CreateWalletCall (CreateWalletForm.network (createWalletForm st));
          EncryptCall key (CreateWalletForm.passphrase (createWalletForm st))] e)
| run_mnemonic_unsealed (response : Generated.t) (key : string) (sealedKey : Blob)
    (entropy1 : Entropy) (m : string) (e : Js.exn) (entropy2 : Entropy) :
    create_submitted st w = true ->
    provider w (CreateWalletForm.network (createWalletForm st)) = Js.Ok response ->
    Generated.key response = Some key ->
    Js.truthy key = true ->
    encryptPrivateKey key (CreateWalletForm.passphrase (createWalletForm st)) (entropy w)
    = (Js.Ok sealedKey, entropy1) ->
    Generated.mnemonic response = Some m ->
    Js.truthy m = true ->
    encryptPrivateKey m (CreateWalletForm.passphrase (createWalletForm st)) entropy1
    = (Js.Throw e, entropy2) ->
    creation_run st w
      (creation_failed st w entropy2
         [CreateWalletCall (CreateWalletForm.network (createWalletForm st));
          EncryptCall key (CreateWalletForm.passphrase (createWalletForm st));
          EncryptCall m (CreateWalletForm.passphrase (createWalletForm st))] e)
| run_store_refused (response : Generated.t) (key : string) (sealedKey : Blob)
    (entropy1 : Entropy) (sealedMnemonic : option Blob) (entropy2 : Entropy)
    (e : Js.exn) :
    create_submitted st w = true ->
    provider w (CreateWalletForm.network (createWalletForm st)) = Js.Ok response ->
    Generated.key response = Some key ->
    Js.truthy key = true ->
    encryptPrivateKey key (CreateWalletForm.passphrase (createWalletForm st)) (entropy w)
    = (Js.Ok sealedKey, entropy1) ->
    seals_mnemonic (Generated.mnemonic response)
      (CreateWalletForm.passphrase (createWalletForm st)) entropy1 sealedMnemonic entropy2 ->
    saveWallet (database w) (assembled st w response sealedKey sealedMnemonic) = Js.Throw e ->
    creation_run st w
      (creation_failed st w entropy2
         ([CreateWalletCall (CreateWalletForm.network (createWalletForm st));
           EncryptCall key (CreateWalletForm.passphrase (createWalletForm st))]
          ++ mnemonic_calls (Generated.mnemonic response)
               (CreateWalletForm.passphrase (createWalletForm st))
          ++ [SaveWalletCall (assembled st w response sealedKey sealedMnemonic)]) e)
| run_stored (response : Generated.t) (key : string) (sealedKey : Blob)
    (entropy1 : Entropy) (sealedMnemonic : option Blob) (entropy2 : Entropy)
    (database' : Db) :
    create_submitted st w = true ->
    provider w (CreateWalletForm.network (createWalletForm st)) = Js.Ok response ->
    Generated.key response = Some key ->
    Js.truthy key = true ->
    encryptPrivateKey key (CreateWalletForm.passphrase (createWalletForm st)) (entropy w)
    = (Js.Ok sealedKey, entropy1) ->
    seals_mnemonic (Generated.mnemonic response)
      (CreateWalletForm.passphrase (createWalletForm st)) entropy1 sealedMnemonic entropy2 ->
    saveWallet (database w) (assembled st w response sealedKey sealedMnemonic)
    = Js.Ok database' ->
    creation_run st w
      (creation_succeeded st w response key
         (assembled st w response sealedKey sealedMnemonic) entropy2 database'
         ([CreateWalletCall (CreateWalletForm.network (createWalletForm st));
           EncryptCall key (CreateWalletForm.passphrase (createWalletForm st))]
          ++ mnemonic_calls (Generated.mnemonic response)
               (CreateWalletForm.passphrase (createWalletForm st))
          ++ [SaveWalletCall (assembled st w response sealedKey sealedMnemonic)])).

(** The list on screen is what the database would return. *)
Definition in_sync (sys : Sys Blob Db Entropy) : Prop :=
  getAllWallets (database (snd sys)) = Js.Ok (wallets (fst sys)).

(** A database whose listing grows by each record it takes in, at the end. *)
Definition lists_in_insertion_order : Prop :=
  forall (d d' : Db) (record : Wallet.t Blob) (listed : list (Wallet.t Blob)),
    saveWallet d record = Js.Ok d' ->
    getAllWallets d = Js.Ok listed ->
    getAllWallets d' = Js.Ok (listed ++ [record]).

End Outcomes.

(** ** More sample inputs *)

Module Trial.

(** A world like [Sample.world] whose provider cannot be reached: the call
    throws something that is no [Error]. *)
Definition offline (records : Store.t Box.t) : World Box.t (Store.t Box.t) nat :=
  {| db := true;
     database := records;
     now := 1700000000000;
     entropy := 0%nat;
     provider := fun _ => Js.Throw (Js.Thrown "timeout");
     trace := [] |}.

(** [Sample.world] one millisecond later. *)
Definition later (records : Store.t Box.t) (response : Generated.t)
  : World Box.t (Store.t Box.t) nat :=
  {| db := true;
     database := records;
     now := 1700000000001;
     entropy := 0%nat;
     provider := fun _ => Js.Ok response;
     trace := [] |}.

(** A cipher that seals once and then gives out. *)
Definition jammed : Crypto Box.t nat :=
  {| encryptPrivateKey := fun plaintext passphrase next =>
       match next with
       | O => (Js.Ok (Box.mk next plaintext passphrase), S next)
       | S _ => (Js.Throw (Js.Error "cipher gave out"), next)
       end |}.

(** Two wallets that have not moved. *)
Definition still : list (Wallet.t Box.t) :=
  [Sample.tracked "1" 100%float 0%float; Sample.tracked "2" 250%float 0%float].

(** A portfolio with one balance that is no number. *)
Definition spoiled : list (Wallet.t Box.t) :=
  [Sample.tracked "1" 100%float 10%float; Sample.tracked "2" nan 0%float;
   Sample.tracked "3" 250%float (-5)%float].

End Trial.

(** * Properties *)

(** ** The portfolio figures *)

Section Aggregator.

Context {Blob : Type}.
Implicit Types (records : list (Wallet.t Blob)) (field : Wallet.t Blob -> Js.number).

Lemma Sigma_ext (n : nat) (f g : nat -> Js.number) :
  (forall i, (i < n)%nat -> f i = g i) -> Spec.Sigma n f = Spec.Sigma n g.
Proof.
  induction n as [|n IH]; intros Hfg; simpl.
  - reflexivity.
  - rewrite IH by (intros i Hi; apply Hfg; lia).
    rewrite Hfg by lia. reflexivity.
Qed.

Lemma term_snoc_old field records r i :
  (i < List.length records)%nat ->
  Spec.term field (records ++ [r]) i = Spec.term field records i.
Proof.
  intros Hi. unfold Spec.term. now rewrite nth_error_app1.
Qed.

Lemma term_snoc_new field records r :
  Spec.term field (records ++ [r]) (List.length records) = field r.
Proof.
  unfold Spec.term.
  rewrite nth_error_app2, Nat.sub_diag by lia. reflexivity.
Qed.

(** [reduce] with [+] from 0 is the sum of the terms in list order. *)
Lemma reduce_Sigma field records :
  fold_left (fun sum wallet => (sum + field wallet)%float) records 0%float
  = Spec.Sigma (List.length records) (Spec.term field records).
Proof.
  induction records as [|r records IH] using rev_ind.
  - reflexivity.
  - rewrite fold_left_app, length_app, Nat.add_comm. simpl.
    rewrite IH, term_snoc_new.
    f_equal. apply Sigma_ext. intros i Hi.
    symmetry. now apply term_snoc_old.
Qed.

Lemma totalBalance_Sigma records : totalBalance records = Spec.totalValue records.
Proof. apply reduce_Sigma. Qed.

Lemma totalChange_Sigma records : totalChange records = Spec.totalChange records.
Proof. apply reduce_Sigma. Qed.

(** The sum of a list of numbers from 0, left to right. *)
Lemma reduce_map field records :
  fold_left (fun sum wallet => (sum + field wallet)%float) records 0%float
  = fold_left PrimFloat.add (List.map field records) 0%float.
Proof.
  generalize 0%float.
  induction records as [|r records IH]; intros acc; simpl; [reflexivity | apply IH].
Qed.

(** C3: the figures of any collection are the spec's: [totalBalance] is the
    sum of the [balanceUSD]s, [totalChange] the sum of the [change24h]s, and
    [totalChangePercent] is [totalChange / (totalValue - totalChange) * 100]
    when the total is positive and 0 otherwise.  For balances 100 and 250
    with changes 10 and -5 they are 350, 5 and [5 / 345 * 100]. *)
Theorem aggregate_matches_spec records :
  totalBalance records = Spec.totalValue records /\
  totalChange records = Spec.totalChange records /\
  totalChangePercent records = Spec.totalChangePercent records /\
  (List.map Wallet.balanceUSD records = [100; 250]%float ->
   List.map Wallet.change24h records = [10; -5]%float ->
   totalBalance records = 350%float /\
   totalChange records = 5%float /\
   totalChangePercent records = (5 / 345 * 100)%float).
Proof.
  split; [apply totalBalance_Sigma|].
  split; [apply totalChange_Sigma|].
  split.
  - unfold totalChangePercent, Spec.totalChangePercent.
    now rewrite totalBalance_Sigma, totalChange_Sigma.
  - intros Hb Hc.
    assert (HB : totalBalance records = 350%float).
    { unfold totalBalance. rewrite reduce_map, Hb. reflexivity. }
    assert (HC : totalChange records = 5%float).
    { unfold totalChange. rewrite reduce_map, Hc. reflexivity. }
    repeat split; trivial.
    unfold totalChangePercent. rewrite HB, HC. reflexivity.
Qed.

(** C6: with no wallets the total, the change and the percentage are all 0;
    the guard [totalBalance > 0] fails, so the quotient is never taken. *)
Theorem aggregate_empty :
  totalBalance (@nil (Wallet.t Blob)) = 0%float /\
  totalChange (@nil (Wallet.t Blob)) = 0%float /\
  (0 <? totalBalance (@nil (Wallet.t Blob)))%float = false /\
  totalChangePercent (@nil (Wallet.t Blob)) = 0%float.
Proof. repeat split. Qed.

End Aggregator.

(** C9: there is a collection with a positive total whose change equals the
    total: the divisor [totalBalance - totalChange] is 0 although the guard
    passes, and the percentage is [Infinity], not a finite number. *)
Theorem totalChangePercent_divides_by_zero :
  exists records : list (Wallet.t Box.t),
    (0 <? totalBalance records)%float = true /\
    totalChange records = totalBalance records /\
    (totalBalance records - totalChange records)%float = 0%float /\
    totalChangePercent records = infinity /\
    is_finite (totalChangePercent records) = false.
Proof. exists Sample.overnight. repeat split. Qed.

(** The spec's example, on two concrete records. *)
Lemma aggregate_matches_spec_witness :
  totalBalance Sample.portfolio = 350%float /\
  totalChange Sample.portfolio = 5%float /\
  totalChangePercent Sample.portfolio = (5 / 345 * 100)%float.
Proof.
  exact (proj2 (proj2 (proj2 (aggregate_matches_spec Sample.portfolio))) eq_refl eq_refl).
Defined.

(** ** The handlers *)

Section Handlers.

Context {Blob Db Entropy : Type}.
Context {crypto : Crypto Blob Entropy} {accountDb : AccountDb Blob Db}.
Implicit Types (st : State Blob) (w : World Blob Db Entropy).

Ltac run_handler :=
  unfold dispatch, handleCreateWallet, handleAddWallet, loadWallets,
    handleSuccessConfirm, handleSuccessOpenChange;
  unfold bind, try_finally, try_catch, useAccountStore_db, Date_now,
    createWallet, encrypt, save, getAll, console_log, console_error, alert,
    setWallets, setSelectedWallet, setShowAddModal, setShowCreateModal,
    setShowSuccessModal, setNewlyCreatedWallet, setNewWalletForm,
    setCreateWalletForm, setIsCreatingWallet, emit, modify, throw, ret;
  cbn.

Ltac read_trace :=
  unfold untouched, inserted, surfaced, saved, sealed, alerts, console_errors in *;
  cbn in *;
  rewrite ?flat_map_app in *; cbn in *;
  rewrite <- ?app_assoc, ?app_nil_r in *; cbn in *.

Lemma saved_app (t1 t2 : list (Event Blob)) : saved (t1 ++ t2) = saved t1 ++ saved t2.
Proof. apply flat_map_app. Qed.

Lemma not_self_snoc {A} (l : list A) (x : A) : l <> l ++ [x].
Proof.
  intros H. apply (f_equal (@List.length A)) in H.
  rewrite length_app in H. simpl in H. lia.
Qed.

(** *** [handleCreateWallet], path by path *)

Lemma handleCreateWallet_not_submitted st w :
  Js.truthy (CreateWalletForm.name (createWalletForm st)) = false \/
  Js.truthy (CreateWalletForm.passphrase (createWalletForm st)) = false \/
  db w = false ->
  dispatch handleCreateWallet (st, w) = (Js.Ok tt, (st, w)).
Proof.
  intros H. run_handler.
  destruct H as [-> | [-> | ->]]; cbn; rewrite ?orb_true_r; reflexivity.
Qed.

Lemma handleCreateWallet_provider_throws st w e :
  Js.truthy (CreateWalletForm.name (createWalletForm st)) = true ->
  Js.truthy (CreateWalletForm.passphrase (createWalletForm st)) = true ->
  db w = true ->
  provider w (CreateWalletForm.network (createWalletForm st)) = Js.Throw e ->
  dispatch handleCreateWallet (st, w)
  = creation_failed st w (entropy w)
      [CreateWalletCall (CreateWalletForm.network (createWalletForm st))] e.
Proof.
  intros Hname Hpass Hdb Hprov.
  run_handler. rewrite Hname, Hpass, Hdb. cbn. rewrite Hprov. cbn.
  unfold creation_failed. rewrite ?Hdb, <- ?app_assoc. reflexivity.
Qed.

Lemma handleCreateWallet_no_key st w response :
  Js.truthy (CreateWalletForm.name (createWalletForm st)) = true ->
  Js.truthy (CreateWalletForm.passphrase (createWalletForm st)) = true ->
  db w = true ->
  provider w (CreateWalletForm.network (createWalletForm st)) = Js.Ok response ->
  Js.truthy_opt (Generated.key response) = false ->
  dispatch handleCreateWallet (st, w)
  = creation_failed st w (entropy w)
      [CreateWalletCall (CreateWalletForm.network (createWalletForm st));
       ConsoleLog response]
      (Js.Error "Private key is missing in the wallet creation response").
Proof.
  intros Hname Hpass Hdb Hprov Hkey.
  run_handler. rewrite Hname, Hpass, Hdb. cbn. rewrite Hprov. cbn.
  unfold creation_failed.
  destruct (Generated.key response) as [key|]; cbn in Hkey |- *;
    [rewrite Hkey; cbn|]; rewrite ?Hdb, <- ?app_assoc; reflexivity.
Qed.

Lemma handleCreateWallet_key_unsealed st w response key e entropy1 :
  let passphrase := CreateWalletForm.passphrase (createWalletForm st) in
  Js.truthy (CreateWalletForm.name (createWalletForm st)) = true ->
  Js.truthy passphrase = true ->
  db w = true ->
  provider w (CreateWalletForm.network (createWalletForm st)) = Js.Ok response ->
  Generated.key response = Some key ->
  Js.truthy key = true ->
  encryptPrivateKey key passphrase (entropy w) = (Js.Throw e, entropy1) ->
  dispatch handleCreateWallet (st, w)
  = creation_failed st w entropy1
      [CreateWalletCall (CreateWalletForm.network (createWalletForm st));
       EncryptCall key passphrase] e.
Proof.
  intros passphrase Hname Hpass Hdb Hprov Hkey Husable Hseal. subst passphrase.
  run_handler. rewrite Hname, Hpass, Hdb. cbn. rewrite Hprov. cbn.
  rewrite Hkey, Husable. cbn. rewrite Hseal. cbn.
  unfold creation_failed. rewrite ?Hdb, <- ?app_assoc. reflexivity.
Qed.

Lemma handleCreateWallet_mnemonic_unsealed st w response key sealedKey entropy1 m e entropy2 :
  let passphrase := CreateWalletForm.passphrase (createWalletForm st) in
  Js.truthy (CreateWalletForm.name (createWalletForm st)) = true ->
  Js.truthy passphrase = true ->
  db w = true ->
  provider w (CreateWalletForm.network (createWalletForm st)) = Js.Ok response ->
  Generated.key response = Some key ->
  Js.truthy key = true ->
  encryptPrivateKey key passphrase (entropy w) = (Js.Ok sealedKey, entropy1) ->
  Generated.mnemonic response = Some m ->
  Js.truthy m = true ->
  encryptPrivateKey m passphrase entropy1 = (Js.Throw e, entropy2) ->
  dispatch handleCreateWallet (st, w)
  = creation_failed st w entropy2
      [CreateWalletCall (CreateWalletForm.network (createWalletForm st));
       EncryptCall key passphrase; EncryptCall m passphrase] e.
Proof.
  intros passphrase Hname Hpass Hdb Hprov Hkey Husable Hseal Hm Hmt Hseal2.
  subst passphrase.
  run_handler. rewrite Hname, Hpass, Hdb. cbn. rewrite Hprov. cbn.
  rewrite Hkey, Husable. cbn. rewrite Hseal. cbn.
  rewrite Hm, Hmt. cbn. rewrite Hseal2. cbn.
  unfold creation_failed. rewrite ?Hdb, <- ?app_assoc. reflexivity.
Qed.

(** What a creation does once the key and the mnemonic are sealed: it hands
    the assembled record to the Store, and either shows the secrets or
    reports the Store's error. *)
Lemma handleCreateWallet_sealed st w response key sealedKey entropy1 sealedMnemonic entropy2 :
  let form := createWalletForm st in
  let passphrase := CreateWalletForm.passphrase form in
  let walletData := assembled st w response sealedKey sealedMnemonic in
  let calls :=
    [CreateWalletCall (CreateWalletForm.network form); EncryptCall key passphrase]
    ++ mnemonic_calls (Generated.mnemonic response) passphrase
    ++ [SaveWalletCall walletData] in
  Js.truthy (CreateWalletForm.name form) = true ->
  Js.truthy passphrase = true ->
  db w = true ->
  provider w (CreateWalletForm.network form) = Js.Ok response ->
  Generated.key response = Some key ->
  Js.truthy key = true ->
  encryptPrivateKey key passphrase (entropy w) = (Js.Ok sealedKey, entropy1) ->
  seals_mnemonic (Generated.mnemonic response) passphrase entropy1 sealedMnemonic entropy2 ->
  dispatch handleCreateWallet (st, w) =
  match saveWallet (database w) walletData with
  | Js.Ok database' =>
      (Js.Ok tt,
       ({| wallets := wallets st ++ [walletData];
           selectedWallet := selectedWallet st;
           showAddModal := showAddModal st;
           showCreateModal := false;
           showSuccessModal := true;
           balanceVisible := balanceVisible st;
           newlyCreatedWallet :=
             Some {| NewlyCreated.address := Generated.address response;
                     NewlyCreated.privateKey := key;
                     NewlyCreated.mnemonic := Generated.mnemonic response;
                     NewlyCreated.network := CreateWalletForm.network form;
                     NewlyCreated.name := CreateWalletForm.name form |};
           newWalletForm := newWalletForm st;
           createWalletForm := CreateWalletForm.mk "" ethereum "";
           isCreatingWallet := false |},
        {| db := db w; database := database'; now := now w;
           entropy := entropy2; provider := provider w;
           trace := trace w ++ calls |}))
  | Js.Throw e => creation_failed st w entropy2 calls e
  end.
Proof.
  intros form passphrase walletData calls Hname Hpass Hdb Hprov Hkey Husable Hseal Hmn.
  subst form passphrase walletData calls.
  run_handler. rewrite Hname, Hpass, Hdb. cbn. rewrite Hprov. cbn.
  rewrite Hkey, Husable. cbn. rewrite Hseal. cbn.
  unfold seals_mnemonic, mnemonic_calls, creation_failed in *.
  destruct (Generated.mnemonic response) as [m|]; cbn;
    [destruct (Js.truthy m); cbn; [destruct Hmn as (blob & Hblob & ->); rewrite Hblob; cbn|]|].
  2,3: destruct Hmn as [-> ->].
  all: unfold assembled;
    destruct (saveWallet _ _); cbn; rewrite ?Hdb, <- ?app_assoc; reflexivity.
Qed.

(** *** [handleAddWallet], path by path *)

Lemma handleAddWallet_not_submitted st w :
  Js.truthy (NewWalletForm.name (newWalletForm st)) = false \/
  Js.truthy (NewWalletForm.address (newWalletForm st)) = false \/
  Js.truthy (NewWalletForm.balance (newWalletForm st)) = false \/
  Js.truthy (NewWalletForm.balanceUSD (newWalletForm st)) = false \/
  db w = false ->
  dispatch handleAddWallet (st, w) = (Js.Ok tt, (st, w)).
Proof.
  intros H. run_handler.
  destruct H as [-> | [-> | [-> | [-> | ->]]]]; cbn; rewrite ?orb_true_r; reflexivity.
Qed.

Lemma handleAddWallet_submitted st w :
  Js.truthy (NewWalletForm.name (newWalletForm st)) = true ->
  Js.truthy (NewWalletForm.address (newWalletForm st)) = true ->
  Js.truthy (NewWalletForm.balance (newWalletForm st)) = true ->
  Js.truthy (NewWalletForm.balanceUSD (newWalletForm st)) = true ->
  db w = true ->
  dispatch handleAddWallet (st, w) =
  match saveWallet (database w) (entered st w) with
  | Js.Ok database' =>
      (Js.Ok tt,
       ({| wallets := wallets st ++ [entered st w];
           selectedWallet := selectedWallet st;
           showAddModal := false;
           showCreateModal := showCreateModal st;
           showSuccessModal := showSuccessModal st;
           balanceVisible := balanceVisible st;
           newlyCreatedWallet := newlyCreatedWallet st;
           newWalletForm := NewWalletForm.mk "" "" ethereum "" "";
           createWalletForm := createWalletForm st;
           isCreatingWallet := isCreatingWallet st |},
        {| db := db w; database := database'; now := now w;
           entropy := entropy w; provider := provider w;
           trace := trace w ++ [SaveWalletCall (entered st w)] |}))
  | Js.Throw e =>
      (Js.Ok tt,
       (st,
        {| db := db w; database := database w; now := now w;
           entropy := entropy w; provider := provider w;
           trace := trace w
                    ++ [SaveWalletCall (entered st w);
                        ConsoleError "Error saving wallet:" e] |}))
  end.
Proof.
  intros Hname Haddr Hbal Husd Hdb.
  run_handler. rewrite Hname, Haddr, Hbal, Husd, Hdb. cbn.
  unfold entered.
  destruct (saveWallet _ _); cbn; rewrite ?Hdb, <- ?app_assoc; reflexivity.
Qed.

(** *** What the outcomes leave behind *)

Lemma saved_mnemonic_calls (mnemonic : option string) (passphrase : string) :
  saved (@mnemonic_calls Blob mnemonic passphrase) = [].
Proof.
  unfold mnemonic_calls.
  destruct mnemonic as [m|]; [destruct (Js.truthy m)|]; reflexivity.
Qed.

Lemma creation_failed_untouched st w entropy' calls e :
  saved calls = [] ->
  untouched (st, w) (snd (creation_failed st w entropy' calls e)).
Proof.
  intros Hcalls. unfold untouched, creation_failed.
  cbn [fst snd trace database wallets].
  rewrite !saved_app, Hcalls. cbn. rewrite !app_nil_r. auto.
Qed.

Lemma handleAddWallet_cases st w :
  one_insert_at_most st w (snd (dispatch handleAddWallet (st, w))).
Proof.
  destruct (Js.truthy (NewWalletForm.name (newWalletForm st))) eqn:Hname;
    [|left; rewrite handleAddWallet_not_submitted by tauto; repeat split].
  destruct (Js.truthy (NewWalletForm.address (newWalletForm st))) eqn:Haddr;
    [|left; rewrite handleAddWallet_not_submitted by tauto; repeat split].
  destruct (Js.truthy (NewWalletForm.balance (newWalletForm st))) eqn:Hbal;
    [|left; rewrite handleAddWallet_not_submitted by tauto; repeat split].
  destruct (Js.truthy (NewWalletForm.balanceUSD (newWalletForm st))) eqn:Husd;
    [|left; rewrite handleAddWallet_not_submitted by tauto; repeat split].
  destruct (db w) eqn:Hdb;
    [|left; rewrite handleAddWallet_not_submitted by tauto; repeat split].
  right. exists (entered st w).
  rewrite handleAddWallet_submitted by assumption.
  destruct (saveWallet (database w) (entered st w));
    cbn [fst snd trace database wallets]; rewrite saved_app; cbn; auto.
Qed.

Lemma handleCreateWallet_cases st w :
  one_insert_at_most st w (snd (dispatch handleCreateWallet (st, w))).
Proof.
  set (form := createWalletForm st).
  set (passphrase := CreateWalletForm.passphrase form).
  destruct (Js.truthy (CreateWalletForm.name form)) eqn:Hname;
    [|left; rewrite handleCreateWallet_not_submitted by tauto; repeat split].
  destruct (Js.truthy passphrase) eqn:Hpass;
    [|left; rewrite handleCreateWallet_not_submitted by tauto; repeat split].
  destruct (db w) eqn:Hdb;
    [|left; rewrite handleCreateWallet_not_submitted by tauto; repeat split].
  destruct (provider w (CreateWalletForm.network form)) as [response|e] eqn:Hprov;
    [|left; rewrite (handleCreateWallet_provider_throws st w e) by assumption;
      now apply creation_failed_untouched].
  destruct (Js.truthy_opt (Generated.key response)) eqn:Husable;
    [|left; rewrite (handleCreateWallet_no_key st w response) by assumption;
      now apply creation_failed_untouched].
  destruct (Generated.key response) as [key|] eqn:Hkey; [|discriminate].
  cbn in Husable.
  destruct (encryptPrivateKey key passphrase (entropy w)) as [[sealedKey|e] entropy1] eqn:Hseal;
    [|left; rewrite (handleCreateWallet_key_unsealed st w response key e entropy1) by assumption;
      now apply creation_failed_untouched].
  assert (Hsealed : forall sealedMnemonic entropy2,
             seals_mnemonic (Generated.mnemonic response) passphrase entropy1
               sealedMnemonic entropy2 ->
             one_insert_at_most st w (snd (dispatch handleCreateWallet (st, w)))).
  { intros sealedMnemonic entropy2 Hmn. right.
    exists (assembled st w response sealedKey sealedMnemonic).
    rewrite (handleCreateWallet_sealed st w response key sealedKey entropy1
               sealedMnemonic entropy2) by assumption.
    destruct (saveWallet (database w) _); unfold creation_failed;
      cbn [fst snd trace database wallets];
      rewrite !saved_app, ?saved_mnemonic_calls; cbn; auto. }
  destruct (Generated.mnemonic response) as [m|] eqn:Hm.
  - destruct (Js.truthy m) eqn:Hmt.
    + destruct (encryptPrivateKey m passphrase entropy1) as [[blob|e] entropy2] eqn:Hseal2.
      * apply (Hsealed (Some blob) entropy2). cbn. rewrite Hmt. eauto.
      * left.
        rewrite (handleCreateWallet_mnemonic_unsealed st w response key sealedKey
                   entropy1 m e entropy2) by assumption.
        now apply creation_failed_untouched.
    + apply (Hsealed None entropy1). cbn. rewrite Hmt. auto.
  - apply (Hsealed None entropy1). cbn. auto.
Qed.

(** C2: when the provider's answer has no usable key, the handler ends
    normally having logged the answer and the error and shown the user the
    dedicated message; nothing was sealed, no record was handed to the Store,
    and the database and the list of wallets are as before. *)
Theorem handleCreateWallet_missing_key st w response :
  Js.truthy (CreateWalletForm.name (createWalletForm st)) = true ->
  Js.truthy (CreateWalletForm.passphrase (createWalletForm st)) = true ->
  db w = true ->
  provider w (CreateWalletForm.network (createWalletForm st)) = Js.Ok response ->
  Js.truthy_opt (Generated.key response) = false ->
  let outcome := dispatch handleCreateWallet (st, w) in
  fst outcome = Js.Ok tt /\
  trace (snd (snd outcome))
  = trace w ++
    [ CreateWalletCall (CreateWalletForm.network (createWalletForm st));
      ConsoleLog response;
      ConsoleError "Error creating wallet:"
        (Js.Error "Private key is missing in the wallet creation response");
      Alert "Error creating wallet2: Private key is missing in the wallet creation response" ] /\
  alerts (trace (snd (snd outcome)))
  = alerts (trace w)
    ++ ["Error creating wallet2: Private key is missing in the wallet creation response"] /\
  sealed (trace (snd (snd outcome))) = sealed (trace w) /\
  entropy (snd (snd outcome)) = entropy w /\
  untouched (st, w) (snd outcome) /\
  newlyCreatedWallet (fst (snd outcome)) = newlyCreatedWallet st /\
  showSuccessModal (fst (snd outcome)) = showSuccessModal st.
Proof.
  intros Hname Hpass Hdb Hprov Hkey outcome. subst outcome.
  rewrite (handleCreateWallet_no_key st w response) by assumption.
  unfold creation_failed, creation_alert. read_trace. repeat split; reflexivity.
Qed.


(** C1: when the provider returns a usable key (and the cipher and the Store
    do their part), a creation hands the Store exactly one record and the
    Store's answer becomes the database; the record is appended to the list
    of wallets.  It carries the provider's address, zero balance, balanceUSD,
    change24h and changePercent24h, no tokens and no transactions; its
    encryptedPrivateKey is the cipher's seal of the provider's key under the
    passphrase of the form; its encryptedMnemonic is there exactly when the
    provider returned a mnemonic, and is then the blob of a second call to
    the cipher. *)
Theorem handleCreateWallet_persists
    st w response key sealedKey entropy1 sealedMnemonic entropy2 database' :
  let form := createWalletForm st in
  let passphrase := CreateWalletForm.passphrase form in
  let walletData := assembled st w response sealedKey sealedMnemonic in
  Js.truthy (CreateWalletForm.name form) = true ->
  Js.truthy passphrase = true ->
  db w = true ->
  provider w (CreateWalletForm.network form) = Js.Ok response ->
  Generated.key response = Some key ->
  Js.truthy key = true ->
  encryptPrivateKey key passphrase (entropy w) = (Js.Ok sealedKey, entropy1) ->
  seals_mnemonic (Generated.mnemonic response) passphrase entropy1 sealedMnemonic entropy2 ->
  saveWallet (database w) walletData = Js.Ok database' ->
  let outcome := dispatch handleCreateWallet (st, w) in
  fst outcome = Js.Ok tt /\
  saved (trace (snd (snd outcome))) = saved (trace w) ++ [walletData] /\
  database (snd (snd outcome)) = database' /\
  wallets (fst (snd outcome)) = wallets st ++ [walletData] /\
  alerts (trace (snd (snd outcome))) = alerts (trace w) /\
  sealed (trace (snd (snd outcome)))
  = sealed (trace w) ++ (key, passphrase)
      :: sealed (@mnemonic_calls Blob (Generated.mnemonic response) passphrase) /\
  Wallet.address walletData = Generated.address response /\
  Wallet.balance walletData = 0%float /\
  Wallet.balanceUSD walletData = 0%float /\
  Wallet.change24h walletData = 0%float /\
  Wallet.changePercent24h walletData = 0%float /\
  Wallet.tokens walletData = [] /\
  Wallet.transactions walletData = [] /\
  Wallet.encryptedPrivateKey walletData = Some sealedKey /\
  ((exists blob, Wallet.encryptedMnemonic walletData = Some blob)
   <-> Js.truthy_opt (Generated.mnemonic response) = true) /\
  (forall m, Generated.mnemonic response = Some m -> Js.truthy m = true ->
     exists blob,
       encryptPrivateKey m passphrase entropy1 = (Js.Ok blob, entropy2) /\
       Wallet.encryptedMnemonic walletData = Some blob).
Proof.
  intros form passphrase walletData Hname Hpass Hdb Hprov Hkey Husable Hseal Hmn Hsave outcome.
  subst outcome.
  rewrite (handleCreateWallet_sealed st w response key sealedKey entropy1
             sealedMnemonic entropy2) by assumption.
  fold form passphrase walletData. rewrite Hsave.
  cbn [fst snd trace database wallets].
  assert (Halerts : forall mn, alerts (@mnemonic_calls Blob mn passphrase) = []).
  { intros [m|]; cbn; [destruct (Js.truthy m)|]; reflexivity. }
  repeat match goal with |- _ /\ _ => split end; try reflexivity.
  - rewrite !saved_app, saved_mnemonic_calls. reflexivity.
  - unfold alerts in *. rewrite !flat_map_app, Halerts. cbn.
    now rewrite app_nil_r.
  - unfold sealed. rewrite !flat_map_app. cbn. now rewrite app_nil_r.
  - unfold seals_mnemonic in Hmn. cbn.
    destruct (Generated.mnemonic response) as [m|]; cbn;
      [destruct (Js.truthy m)|].
    + destruct Hmn as (blob & _ & ->). split; eauto.
    + destruct Hmn as [-> _]. split; [intros [? ?]|]; discriminate.
    + destruct Hmn as [-> _]. split; [intros [? ?]|]; discriminate.
  - intros m Hm Hmt. unfold seals_mnemonic in Hmn. rewrite Hm, Hmt in Hmn.
    exact Hmn.
Qed.


(** C5: a manual add with name, address, balance and balanceUSD supplied
    hands the Store one record: the given name, address and network, the
    balances as [parseFloat] reads them, change24h and changePercent24h 0, no
    tokens, no transactions and neither encrypted field.  When the Store
    takes it, it is appended to the list of wallets; when the Store refuses,
    the error is logged and nothing is added. *)
Theorem handleAddWallet_record st w :
  let form := newWalletForm st in
  Js.truthy (NewWalletForm.name form) = true ->
  Js.truthy (NewWalletForm.address form) = true ->
  Js.truthy (NewWalletForm.balance form) = true ->
  Js.truthy (NewWalletForm.balanceUSD form) = true ->
  db w = true ->
  let outcome := dispatch handleAddWallet (st, w) in
  exists record,
    fst outcome = Js.Ok tt /\
    saved (trace (snd (snd outcome))) = saved (trace w) ++ [record] /\
    Wallet.name record = NewWalletForm.name form /\
    Wallet.address record = NewWalletForm.address form /\
    Wallet.network record = NewWalletForm.network form /\
    Wallet.balance record = Js.parseFloat (NewWalletForm.balance form) /\
    Wallet.balanceUSD record = Js.parseFloat (NewWalletForm.balanceUSD form) /\
    Wallet.change24h record = 0%float /\
    Wallet.changePercent24h record = 0%float /\
    Wallet.tokens record = [] /\
    Wallet.transactions record = [] /\
    Wallet.encryptedPrivateKey record = None /\
    Wallet.encryptedMnemonic record = None /\
    match saveWallet (database w) record with
    | Js.Ok database' =>
        database (snd (snd outcome)) = database' /\
        wallets (fst (snd outcome)) = wallets st ++ [record] /\
        console_errors (trace (snd (snd outcome))) = console_errors (trace w)
    | Js.Throw e =>
        database (snd (snd outcome)) = database w /\
        wallets (fst (snd outcome)) = wallets st /\
        console_errors (trace (snd (snd outcome)))
        = console_errors (trace w) ++ [("Error saving wallet:", e)]
    end.
Proof.
  intros form Hname Haddr Hbal Husd Hdb outcome. subst outcome form.
  exists (entered st w).
  rewrite handleAddWallet_submitted by assumption.
  destruct (saveWallet (database w) (entered st w));
    cbn [fst snd trace database wallets];
    unfold console_errors; rewrite saved_app, flat_map_app; cbn;
    rewrite ?app_nil_r; repeat split; reflexivity.
Qed.

(** C4, as the page has it: a manual add with the balance or the balanceUSD
    field empty returns at once: no Store call, nothing changed, and nothing
    told to the caller (no throw, no alert, no log).  A non-empty field is
    never refused for what it holds: the record goes to the Store with the
    balances that [parseFloat] yields, [NaN] included. *)
Theorem handleAddWallet_missing_balance st w :
  let form := newWalletForm st in
  let outcome := dispatch handleAddWallet (st, w) in
  (Js.truthy (NewWalletForm.balance form) = false \/
   Js.truthy (NewWalletForm.balanceUSD form) = false ->
   outcome = (Js.Ok tt, (st, w)) /\
   untouched (st, w) (snd outcome) /\
   ~ surfaced (st, w) outcome) /\
  (Js.truthy (NewWalletForm.name form) = true ->
   Js.truthy (NewWalletForm.address form) = true ->
   Js.truthy (NewWalletForm.balance form) = true ->
   Js.truthy (NewWalletForm.balanceUSD form) = true ->
   db w = true ->
   exists record,
     saved (trace (snd (snd outcome))) = saved (trace w) ++ [record] /\
     Wallet.balance record = Js.parseFloat (NewWalletForm.balance form) /\
     Wallet.balanceUSD record = Js.parseFloat (NewWalletForm.balanceUSD form)).
Proof.
  intros form outcome. subst form outcome. split.
  - intros H. rewrite handleAddWallet_not_submitted by tauto.
    split; [reflexivity|]. split; [repeat split|].
    unfold surfaced. cbn [fst snd].
    intros [[e He] | [Ha | Hc]]; [discriminate | now apply Ha | now apply Hc].
  - intros Hname Haddr Hbal Husd Hdb. exists (entered st w).
    rewrite handleAddWallet_submitted by assumption.
    destruct (saveWallet (database w) (entered st w));
      cbn [fst snd trace]; rewrite saved_app; cbn; repeat split; reflexivity.
Qed.


End Handlers.

(** ** The Store's identifiers *)

Section StoreIds.

Context {Blob Entropy : Type} {crypto : Crypto Blob Entropy}.
Implicit Types (s : Store.t Blob) (record : Wallet.t Blob).
Implicit Types (st : State Blob) (w : World Blob (Store.t Blob) Entropy).

Lemma has_id_In s i : Store.has_id s i = true <-> In i (Store.ids s).
Proof.
  unfold Store.has_id, Store.ids. rewrite existsb_exists, in_map_iff.
  split; intros (r & H1 & H2); exists r.
  - apply String.eqb_eq in H2. auto.
  - split; [assumption|]. now apply String.eqb_eq.
Qed.

Lemma insert_duplicate s record :
  In (Wallet.id record) (Store.ids s) ->
  Store.insert s record = Js.Throw Store.DuplicateId.
Proof.
  intros Hin. unfold Store.insert.
  apply has_id_In in Hin. now rewrite Hin.
Qed.

Lemma insert_NoDup s record s' :
  NoDup (Store.ids s) -> Store.insert s record = Js.Ok s' -> NoDup (Store.ids s').
Proof.
  intros Hs. unfold Store.insert.
  destruct (Store.has_id s (Wallet.id record)) eqn:H; [discriminate|].
  intros [= <-]. unfold Store.ids in *. rewrite map_app. cbn.
  apply NoDup_app; [assumption | repeat constructor; intros [] |].
  intros i Hi [<- | []].
  apply has_id_In in Hi. congruence.
Qed.

Lemma one_insert_NoDup st w (after : Sys Blob (Store.t Blob) Entropy) :
  one_insert_at_most st w after ->
  NoDup (Store.ids (database w)) -> NoDup (Store.ids (database (snd after))).
Proof.
  intros [(_ & Hsame & _) | (record & _ & Hrest)] Hw.
  - cbn [fst snd] in Hsame. now rewrite Hsame.
  - destruct (saveWallet (database w) record) as [database'|e] eqn:Hsave.
    + destruct Hrest as [-> _]. exact (insert_NoDup _ _ _ Hw Hsave).
    + destruct Hrest as [-> _]. assumption.
Qed.

(** C7, as the page has it, over the Store of the spec: a record whose id is
    already there is refused with [DuplicateId] and one whose id is new goes
    to the end; ids that are pairwise different stay so under [insert] and
    under both handlers.  A [DuplicateId] met by a creation is not retried:
    the one record tried is the only one handed to the Store, the error is
    logged and shown to the user in an alert, and nothing is added. *)
Theorem store_ids_unique st w :
  (forall s record,
     match Store.insert s record with
     | Js.Ok s' =>
         ~ In (Wallet.id record) (Store.ids s) /\ s' = s ++ [record] /\
         (NoDup (Store.ids s) -> NoDup (Store.ids s'))
     | Js.Throw e => In (Wallet.id record) (Store.ids s) /\ e = Store.DuplicateId
     end) /\
  (NoDup (Store.ids (database w)) ->
   NoDup (Store.ids (database (snd (snd (dispatch handleAddWallet (st, w)))))) /\
   NoDup (Store.ids (database (snd (snd (dispatch handleCreateWallet (st, w))))))) /\
  (forall response key sealedKey entropy1 sealedMnemonic entropy2,
     let form := createWalletForm st in
     let passphrase := CreateWalletForm.passphrase form in
     let walletData := assembled st w response sealedKey sealedMnemonic in
     Js.truthy (CreateWalletForm.name form) = true ->
     Js.truthy passphrase = true ->
     db w = true ->
     provider w (CreateWalletForm.network form) = Js.Ok response ->
     Generated.key response = Some key ->
     Js.truthy key = true ->
     encryptPrivateKey key passphrase (entropy w) = (Js.Ok sealedKey, entropy1) ->
     seals_mnemonic (Generated.mnemonic response) passphrase entropy1 sealedMnemonic entropy2 ->
     In (Js.toString (now w)) (Store.ids (database w)) ->
     let outcome := dispatch handleCreateWallet (st, w) in
     fst outcome = Js.Ok tt /\
     saved (trace (snd (snd outcome))) = saved (trace w) ++ [walletData] /\
     console_errors (trace (snd (snd outcome)))
     = console_errors (trace w) ++ [("Error creating wallet:", Store.DuplicateId)] /\
     alerts (trace (snd (snd outcome)))
     = alerts (trace w) ++ ["Error creating wallet2: DuplicateId"] /\
     database (snd (snd outcome)) = database w /\
     wallets (fst (snd outcome)) = wallets st /\
     newlyCreatedWallet (fst (snd outcome)) = newlyCreatedWallet st).
Proof.
  split; [|split].
  - intros s record. unfold Store.insert.
    destruct (Store.has_id s (Wallet.id record)) eqn:H.
    + split; [now apply has_id_In | reflexivity].
    + split; [|split].
      * intros Hin. apply has_id_In in Hin. congruence.
      * reflexivity.
      * intros Hs. apply (insert_NoDup s record); [assumption|].
        unfold Store.insert. now rewrite H.
  - intros Hw. split.
    + apply (one_insert_NoDup st w); [apply handleAddWallet_cases | assumption].
    + apply (one_insert_NoDup st w); [apply handleCreateWallet_cases | assumption].
  - intros response key sealedKey entropy1 sealedMnemonic entropy2
      form passphrase walletData Hname Hpass Hdb Hprov Hkey Husable Hseal Hmn Hdup outcome.
    subst outcome.
    rewrite (handleCreateWallet_sealed st w response key sealedKey entropy1
               sealedMnemonic entropy2) by assumption.
    fold form passphrase walletData.
    change (saveWallet (database w) walletData) with (Store.insert (database w) walletData).
    rewrite insert_duplicate by exact Hdup.
    unfold creation_failed.
    cbn [fst snd trace database wallets newlyCreatedWallet].
    assert (Hquiet : forall mn,
               alerts (@mnemonic_calls Blob mn passphrase) = [] /\
               console_errors (@mnemonic_calls Blob mn passphrase) = []).
    { intros [m|]; cbn; [destruct (Js.truthy m)|]; split; reflexivity. }
    destruct (Hquiet (Generated.mnemonic response)) as [Ha Hc].
    repeat match goal with |- _ /\ _ => split end; try reflexivity.
    + rewrite !saved_app, saved_mnemonic_calls. cbn. now rewrite ?app_nil_r.
    + unfold console_errors in *. rewrite !flat_map_app, Hc. reflexivity.
    + unfold alerts in *. rewrite !flat_map_app, Ha. reflexivity.
Qed.

End StoreIds.

(** ** The claims on the sample inputs *)

(** The spec's end-to-end creation: one record, sealed under "pw123". *)
Lemma handleCreateWallet_persists_witness :
  let outcome :=
    dispatch handleCreateWallet (Sample.creating [], Sample.world [] Sample.generated) in
  saved (trace (snd (snd outcome))) = [Sample.created] /\
  database (snd (snd outcome)) = [Sample.created] /\
  wallets (fst (snd outcome)) = [Sample.created].
Proof.
  destruct (handleCreateWallet_persists
              (Sample.creating []) (Sample.world [] Sample.generated)
              Sample.generated "k1" (Box.mk 0 "k1" "pw123") 1%nat
              (Some (Box.mk 1 "m1 m2 m3 m4 m5 m6 m7 m8 m9 m10 m11 m12" "pw123")) 2%nat
              [Sample.created])
    as (_ & Hsaved & Hdb & Hwallets & _);
    try reflexivity.
  - simpl. eexists. split; reflexivity.
  - repeat split; assumption.
Defined.

(** The spec's provider failure: a response without a key. *)
Lemma handleCreateWallet_missing_key_witness :
  let outcome :=
    dispatch handleCreateWallet (Sample.creating [], Sample.world [] Sample.keyless) in
  alerts (trace (snd (snd outcome)))
  = ["Error creating wallet2: Private key is missing in the wallet creation response"] /\
  sealed (trace (snd (snd outcome))) = [] /\
  database (snd (snd outcome)) = [].
Proof.
  destruct (handleCreateWallet_missing_key
              (Sample.creating []) (Sample.world [] Sample.keyless) Sample.keyless)
    as (_ & _ & Halerts & Hsealed & _ & (_ & Hdb & _) & _);
    try reflexivity.
  repeat split; assumption.
Defined.

(** The spec's end-to-end manual add. *)
Lemma handleAddWallet_record_witness :
  let outcome :=
    dispatch handleAddWallet
      (Sample.adding [] "1.5" "300.00", Sample.world [] Sample.generated) in
  exists record,
    saved (trace (snd (snd outcome))) = [record] /\
    Wallet.address record = "0xdef" /\
    Wallet.balance record = 1.5%float /\
    Wallet.balanceUSD record = 300%float /\
    Wallet.encryptedPrivateKey record = None /\
    Wallet.encryptedMnemonic record = None.
Proof.
  destruct (handleAddWallet_record
              (Sample.adding [] "1.5" "300.00") (Sample.world [] Sample.generated))
    as (record & _ & Hsaved & _ & Haddr & _ & Hbal & Husd & _ & _ & _ & _ & Hkey & Hmn & _);
    try reflexivity.
  exists record. repeat split; assumption.
Defined.

(** An empty balance field, and one that is no number. *)
Lemma handleAddWallet_missing_balance_witness :
  dispatch handleAddWallet
    (Sample.adding [] "" "300.00", Sample.world [] Sample.generated)
  = (Js.Ok tt, (Sample.adding [] "" "300.00", Sample.world [] Sample.generated)) /\
  exists record,
    saved (trace (snd (snd (dispatch handleAddWallet
             (Sample.adding [] "abc" "12", Sample.world [] Sample.generated)))))
    = [record] /\
    Wallet.balance record = nan.
Proof.
  split.
  - apply (handleAddWallet_missing_balance
             (Sample.adding [] "" "300.00") (Sample.world [] Sample.generated)).
    left. reflexivity.
  - destruct (proj2 (handleAddWallet_missing_balance
                       (Sample.adding [] "abc" "12") (Sample.world [] Sample.generated)))
      as (record & Hsaved & Hbal & _);
      try reflexivity.
    exists record. split; assumption.
Defined.



(** A creation at a moment whose id the Store already holds. *)
Lemma store_ids_unique_witness :
  let before :=
    (Sample.creating [Sample.existing], Sample.world [Sample.existing] Sample.generated) in
  let outcome := dispatch handleCreateWallet before in
  Store.insert [Sample.existing] (Sample.tracked "1700000000000" 0%float 0%float)
  = Js.Throw Store.DuplicateId /\
  NoDup (Store.ids (database (snd (snd outcome)))) /\
  alerts (trace (snd (snd outcome))) = ["Error creating wallet2: DuplicateId"] /\
  database (snd (snd outcome)) = [Sample.existing].
Proof.
  destruct (store_ids_unique
              (Sample.creating [Sample.existing])
              (Sample.world [Sample.existing] Sample.generated))
    as (Hinsert & Hunique & Hdup).
  split; [|split].
  - reflexivity.
  - apply Hunique. repeat constructor. simpl. tauto.
  - destruct (Hdup Sample.generated "k1" (Box.mk 0 "k1" "pw123") 1%nat
                (Some (Box.mk 1 "m1 m2 m3 m4 m5 m6 m7 m8 m9 m10 m11 m12" "pw123")) 2%nat)
      as (_ & _ & _ & Halerts & Hdb & _);
      try reflexivity.
    + simpl. eexists. split; reflexivity.
    + simpl. tauto.
    + split; assumption.
Defined.

(** ** Where the spec and the page part *)

(** C4 does not hold as stated: a balance that is no number is not refused
    (the record is stored), and an empty one is refused without a word. *)
Lemma manual_add_not_validated :
  Js.parseFloat "abc" = nan /\
  ~ fails_with_InvalidInput
      (Sample.adding [] "abc" "12", Sample.world [] Sample.generated)
      (dispatch handleAddWallet
         (Sample.adding [] "abc" "12", Sample.world [] Sample.generated)) /\
  ~ fails_with_InvalidInput
      (Sample.adding [] "" "300.00", Sample.world [] Sample.generated)
      (dispatch handleAddWallet
         (Sample.adding [] "" "300.00", Sample.world [] Sample.generated)).
Proof.
  split; [reflexivity|]. split.
  - intros [(Hsaved & _) _]. vm_compute in Hsaved. discriminate.
  - intros [_ [[e He] | [Ha | Hc]]].
    + vm_compute in He. discriminate.
    + apply Ha. reflexivity.
    + apply Hc. reflexivity.
Qed.

(** C7 does not hold as stated: a [DuplicateId] met by a creation is shown
    to the user and no second id is tried. *)
Lemma duplicate_id_not_retried :
  let before :=
    (Sample.creating [Sample.existing], Sample.world [Sample.existing] Sample.generated) in
  console_errors (trace (snd (snd (dispatch handleCreateWallet before))))
  = [("Error creating wallet:", Store.DuplicateId)] /\
  ~ retried_with_fresh_id before (dispatch handleCreateWallet before).
Proof.
  split; [reflexivity|].
  intros [Halerts _]. vm_compute in Halerts. discriminate.
Qed.


(** ** Every path of the handlers *)

Section Paths.

Context {Blob Db Entropy : Type}.
Context {crypto : Crypto Blob Entropy} {accountDb : AccountDb Blob Db}.
Implicit Types (st : State Blob) (w : World Blob Db Entropy).

Lemma create_submitted_true st w :
  create_submitted st w = true ->
  Js.truthy (CreateWalletForm.name (createWalletForm st)) = true /\
  Js.truthy (CreateWalletForm.passphrase (createWalletForm st)) = true /\
  db w = true.
Proof.
  unfold create_submitted. rewrite !andb_true_iff. tauto.
Qed.

Lemma create_submitted_false st w :
  create_submitted st w = false ->
  Js.truthy (CreateWalletForm.name (createWalletForm st)) = false \/
  Js.truthy (CreateWalletForm.passphrase (createWalletForm st)) = false \/
  db w = false.
Proof.
  unfold create_submitted. rewrite !andb_false_iff. tauto.
Qed.

(** [handleCreateWallet] takes one of the seven paths. *)
Lemma handleCreateWallet_run st w :
  creation_run st w (dispatch handleCreateWallet (st, w)).
Proof.
  set (form := createWalletForm st).
  set (passphrase := CreateWalletForm.passphrase form).
  destruct (create_submitted st w) eqn:Hsub.
  2:{ rewrite handleCreateWallet_not_submitted
        by now apply create_submitted_false.
      now constructor. }
  destruct (create_submitted_true st w Hsub) as (Hname & Hpass & Hdb).
  destruct (provider w (CreateWalletForm.network form)) as [response|e] eqn:Hprov.
  2:{ rewrite (handleCreateWallet_provider_throws st w e) by assumption.
      now apply run_provider_failed. }
  destruct (Js.truthy_opt (Generated.key response)) eqn:Husable.
  2:{ rewrite (handleCreateWallet_no_key st w response) by assumption.
      now apply run_no_key. }
  destruct (Generated.key response) as [key|] eqn:Hkey; [|discriminate].
  cbn in Husable.
  destruct (encryptPrivateKey key passphrase (entropy w))
    as [[sealedKey|e] entropy1] eqn:Hseal.
  2:{ rewrite (handleCreateWallet_key_unsealed st w response key e entropy1)
        by assumption.
      now apply (run_key_unsealed st w response). }
  assert (Hsealed : forall sealedMnemonic entropy2,
             seals_mnemonic (Generated.mnemonic response) passphrase entropy1
               sealedMnemonic entropy2 ->
             creation_run st w (dispatch handleCreateWallet (st, w))).
  { intros sealedMnemonic entropy2 Hmn.
    rewrite (handleCreateWallet_sealed st w response key sealedKey entropy1
               sealedMnemonic entropy2) by assumption.
    destruct (saveWallet (database w) _) as [database'|e] eqn:Hsave.
    - now apply (run_stored st w response key sealedKey entropy1 sealedMnemonic
                   entropy2 database').
    - now apply (run_store_refused st w response key sealedKey entropy1
                   sealedMnemonic entropy2 e). }
  destruct (Generated.mnemonic response) as [m|] eqn:Hm.
  - destruct (Js.truthy m) eqn:Hmt.
    + destruct (encryptPrivateKey m passphrase entropy1)
        as [[blob|e] entropy2] eqn:Hseal2.
      * apply (Hsealed (Some blob) entropy2). cbn. rewrite Hmt. eauto.
      * rewrite (handleCreateWallet_mnemonic_unsealed st w response key sealedKey
                   entropy1 m e entropy2) by assumption.
        now apply (run_mnemonic_unsealed st w response key sealedKey entropy1 m e
                     entropy2).
    + apply (Hsealed None entropy1). cbn. rewrite Hmt. auto.
  - apply (Hsealed None entropy1). cbn. auto.
Qed.

Lemma mnemonic_calls_quiet (mnemonic : option string) (passphrase : string) :
  alerts (@mnemonic_calls Blob mnemonic passphrase) = [] /\
  console_errors (@mnemonic_calls Blob mnemonic passphrase) = [].
Proof.
  unfold mnemonic_calls.
  destruct mnemonic as [m|]; [destruct (Js.truthy m)|]; split; reflexivity.
Qed.

Lemma alerts_app (t1 t2 : list (Event Blob)) : alerts (t1 ++ t2) = alerts t1 ++ alerts t2.
Proof. apply flat_map_app. Qed.

Lemma console_errors_app (t1 t2 : list (Event Blob)) :
  console_errors (t1 ++ t2) = console_errors t1 ++ console_errors t2.
Proof. apply flat_map_app. Qed.

Lemma sealed_app (t1 t2 : list (Event Blob)) : sealed (t1 ++ t2) = sealed t1 ++ sealed t2.
Proof. apply flat_map_app. Qed.

(** What a failed creation tells and what it leaves alone. *)
Lemma creation_failed_reports st w entropy' calls e :
  alerts calls = [] ->
  console_errors calls = [] ->
  let outcome := creation_failed st w entropy' calls e in
  fst outcome = Js.Ok tt /\
  isCreatingWallet (fst (snd outcome)) = false /\
  alerts (trace (snd (snd outcome))) = alerts (trace w) ++ [creation_alert e] /\
  console_errors (trace (snd (snd outcome)))
  = console_errors (trace w) ++ [("Error creating wallet:", e)] /\
  wallets (fst (snd outcome)) = wallets st /\
  database (snd (snd outcome)) = database w /\
  newlyCreatedWallet (fst (snd outcome)) = newlyCreatedWallet st /\
  showSuccessModal (fst (snd outcome)) = showSuccessModal st /\
  showCreateModal (fst (snd outcome)) = showCreateModal st /\
  createWalletForm (fst (snd outcome)) = createWalletForm st.
Proof.
  intros Ha Hc outcome. subst outcome. unfold creation_failed.
  cbn [fst snd trace database wallets isCreatingWallet newlyCreatedWallet
       showSuccessModal showCreateModal createWalletForm].
  rewrite !alerts_app, !console_errors_app, Ha, Hc.
  repeat split; reflexivity.
Qed.

Ltac quiet_calls :=
  rewrite ?alerts_app, ?console_errors_app;
  rewrite ?(proj1 (mnemonic_calls_quiet _ _)), ?(proj2 (mnemonic_calls_quiet _ _));
  cbn; rewrite ?app_nil_r; reflexivity.

Ltac failed_case :=
  match goal with
  | |- context [creation_failed ?st ?w ?en ?calls ?e] =>
      let H := fresh "Hquiet" in
      let Hspin := fresh "Hspin" in
      let Hrest := fresh "Hrest" in
      assert (H : alerts calls = [] /\ console_errors calls = [])
        by (split; quiet_calls);
      destruct (creation_failed_reports st w en calls e (proj1 H) (proj2 H))
        as (_ & Hspin & Hrest);
      split; [exact Hspin | left; exists e; exact Hrest]
  end.

(** X1: neither form handler nor the loading effect ever throws: whatever the
    provider, the cipher and the database do, the failure is caught. *)
Theorem handlers_never_throw st w :
  fst (dispatch handleAddWallet (st, w)) = Js.Ok tt /\
  fst (dispatch handleCreateWallet (st, w)) = Js.Ok tt /\
  fst (loadWallets (st, w)) = Js.Ok tt.
Proof.
  split; [|split].
  - destruct (add_submitted st w) eqn:Hsub; unfold add_submitted in Hsub.
    + rewrite !andb_true_iff in Hsub.
      rewrite handleAddWallet_submitted by tauto.
      now destruct (saveWallet _ _).
    + rewrite !andb_false_iff in Hsub.
      now rewrite handleAddWallet_not_submitted by tauto.
  - destruct (handleCreateWallet_run st w); reflexivity.
  - unfold loadWallets, bind, try_catch, useAccountStore_db, getAll, setWallets,
      console_error, emit, modify, ret. cbn.
    destruct (db w); cbn; [|reflexivity].
    now destruct (getAllWallets (database w)).
Qed.

(** X2: a submitted creation tells the user exactly one thing.  Either it fails:
    one alert with the error's text, one console error, the spinner off and
    everything else (list, database, dialogs, form with its passphrase) as it
    was.  Or it succeeds: no alert, one record listed and taken by the Store,
    the secrets put up, the success dialog open, the create dialog closed and
    the form cleared. *)
Theorem creation_alert_or_dialog st w :
  create_submitted st w = true ->
  let outcome := dispatch handleCreateWallet (st, w) in
  let st' := fst (snd outcome) in
  let w' := snd (snd outcome) in
  isCreatingWallet st' = false /\
  ((exists e,
      alerts (trace w') = alerts (trace w) ++ [creation_alert e] /\
      console_errors (trace w')
      = console_errors (trace w) ++ [("Error creating wallet:", e)] /\
      wallets st' = wallets st /\
      database w' = database w /\
      newlyCreatedWallet st' = newlyCreatedWallet st /\
      showSuccessModal st' = showSuccessModal st /\
      showCreateModal st' = showCreateModal st /\
      createWalletForm st' = createWalletForm st) \/
   (alerts (trace w') = alerts (trace w) /\
    console_errors (trace w') = console_errors (trace w) /\
    (exists record,
       wallets st' = wallets st ++ [record] /\
       saveWallet (database w) record = Js.Ok (database w')) /\
    (exists shown, newlyCreatedWallet st' = Some shown) /\
    showSuccessModal st' = true /\
    showCreateModal st' = false /\
    createWalletForm st' = CreateWalletForm.empty)).
Proof.
  intros Hsub outcome st' w'. subst st' w' outcome.
  destruct (handleCreateWallet_run st w) as
    [Hno | e Hs Hp | response Hs Hp Hk | response key e entropy1 Hs Hp Hk Hu Hseal
     | response key sealedKey entropy1 m e entropy2 Hs Hp Hk Hu Hseal Hm Hmt Hseal2
     | response key sealedKey entropy1 sealedMnemonic entropy2 e Hs Hp Hk Hu Hseal Hmn Hsave
     | response key sealedKey entropy1 sealedMnemonic entropy2 database' Hs Hp Hk Hu Hseal Hmn Hsave].
  - congruence.
  - failed_case.
  - failed_case.
  - failed_case.
  - failed_case.
  - failed_case.
  - unfold creation_succeeded.
    cbn [fst snd trace database wallets isCreatingWallet newlyCreatedWallet
         showSuccessModal showCreateModal createWalletForm].
    split; [reflexivity|]. right.
    repeat match goal with |- _ /\ _ => split end; try reflexivity.
    + quiet_calls. 
    + quiet_calls.
    + eexists. split; [reflexivity | exact Hsave].
    + eexists. reflexivity.
Qed.

(** What [handleCreateWallet] hands to the Store: nothing, or the one record
    assembled after both seals succeeded. *)
Lemma handleCreateWallet_handed st w :
  let after := snd (dispatch handleCreateWallet (st, w)) in
  saved (trace (snd after)) = saved (trace w) \/
  exists response key sealedKey entropy1 sealedMnemonic entropy2,
    provider w (CreateWalletForm.network (createWalletForm st)) = Js.Ok response /\
    Generated.key response = Some key /\
    Js.truthy key = true /\
    encryptPrivateKey key (CreateWalletForm.passphrase (createWalletForm st)) (entropy w)
    = (Js.Ok sealedKey, entropy1) /\
    seals_mnemonic (Generated.mnemonic response)
      (CreateWalletForm.passphrase (createWalletForm st)) entropy1 sealedMnemonic entropy2 /\
    saved (trace (snd after))
    = saved (trace w) ++ [assembled st w response sealedKey sealedMnemonic].
Proof.
  cbv zeta.
  destruct (handleCreateWallet_run st w) as
    [Hno | e Hs Hp | response Hs Hp Hk | response key e entropy1 Hs Hp Hk Hu Hseal
     | response key sealedKey entropy1 m e entropy2 Hs Hp Hk Hu Hseal Hm Hmt Hseal2
     | response key sealedKey entropy1 sealedMnemonic entropy2 e Hs Hp Hk Hu Hseal Hmn Hsave
     | response key sealedKey entropy1 sealedMnemonic entropy2 database' Hs Hp Hk Hu Hseal Hmn Hsave].
  1: now left.
  1-4: left; unfold creation_failed; cbn [fst snd trace];
       rewrite !saved_app; cbn; now rewrite ?app_nil_r.
  all: right; exists response, key, sealedKey, entropy1, sealedMnemonic, entropy2;
       repeat match goal with |- _ /\ _ => split end; try assumption;
       unfold creation_failed, creation_succeeded; cbn [fst snd trace];
       rewrite !saved_app, ?saved_mnemonic_calls; cbn; now rewrite ?app_nil_r.
Qed.

(** X3: when the provider call fails, the user is shown the error's message, or
    "Unknown error" when what was thrown is no [Error]; the cipher and the
    Store are not called and nothing is stored or listed. *)
Theorem provider_failure_is_shown st w e :
  create_submitted st w = true ->
  provider w (CreateWalletForm.network (createWalletForm st)) = Js.Throw e ->
  let outcome := dispatch handleCreateWallet (st, w) in
  trace (snd (snd outcome))
  = trace w ++
    [ CreateWalletCall (CreateWalletForm.network (createWalletForm st));
      ConsoleError "Error creating wallet:" e;
      Alert ("Error creating wallet2: " ++
             match e with
             | Js.Error message => message
             | Js.Thrown _ => "Unknown error"
             end) ] /\
  sealed (trace (snd (snd outcome))) = sealed (trace w) /\
  entropy (snd (snd outcome)) = entropy w /\
  untouched (st, w) (snd outcome) /\
  newlyCreatedWallet (fst (snd outcome)) = newlyCreatedWallet st.
Proof.
  intros Hsub Hprov outcome. subst outcome.
  destruct (create_submitted_true st w Hsub) as (Hname & Hpass & Hdb).
  rewrite (handleCreateWallet_provider_throws st w e) by assumption.
  split; [reflexivity|]. split; [|split; [reflexivity|split]].
  - unfold creation_failed. cbn [fst snd trace].
    rewrite !sealed_app. cbn. now rewrite app_nil_r.
  - now apply creation_failed_untouched.
  - reflexivity.
Qed.

(** X4: when the cipher fails, on the key or on the mnemonic after the key was
    sealed, no record is handed to the Store: the database and the list are
    as before, the secrets are not put up, and the cipher's error is shown. *)
Theorem cipher_failure_stores_nothing st w response key e entropy' :
  let passphrase := CreateWalletForm.passphrase (createWalletForm st) in
  create_submitted st w = true ->
  provider w (CreateWalletForm.network (createWalletForm st)) = Js.Ok response ->
  Generated.key response = Some key ->
  Js.truthy key = true ->
  (encryptPrivateKey key passphrase (entropy w) = (Js.Throw e, entropy') \/
   exists sealedKey entropy1 m,
     encryptPrivateKey key passphrase (entropy w) = (Js.Ok sealedKey, entropy1) /\
     Generated.mnemonic response = Some m /\
     Js.truthy m = true /\
     encryptPrivateKey m passphrase entropy1 = (Js.Throw e, entropy')) ->
  let outcome := dispatch handleCreateWallet (st, w) in
  untouched (st, w) (snd outcome) /\
  alerts (trace (snd (snd outcome))) = alerts (trace w) ++ [creation_alert e] /\
  entropy (snd (snd outcome)) = entropy' /\
  newlyCreatedWallet (fst (snd outcome)) = newlyCreatedWallet st /\
  showSuccessModal (fst (snd outcome)) = showSuccessModal st.
Proof.
  intros passphrase Hsub Hprov Hkey Husable Hfail outcome. subst outcome.
  destruct (create_submitted_true st w Hsub) as (Hname & Hpass & Hdb).
  destruct Hfail as [Hseal | (sealedKey & entropy1 & m & Hseal & Hm & Hmt & Hseal2)].
  - rewrite (handleCreateWallet_key_unsealed st w response key e entropy')
      by assumption.
    split; [now apply creation_failed_untouched|].
    split; [|repeat split].
    match goal with
    | |- context [creation_failed ?st ?w ?en ?calls ?e] =>
        exact (proj1 (proj2 (proj2
                 (creation_failed_reports st w en calls e eq_refl eq_refl))))
    end.
  - rewrite (handleCreateWallet_mnemonic_unsealed st w response key sealedKey
               entropy1 m e entropy') by assumption.
    split; [now apply creation_failed_untouched|].
    split; [|repeat split].
    match goal with
    | |- context [creation_failed ?st ?w ?en ?calls ?e] =>
        exact (proj1 (proj2 (proj2
                 (creation_failed_reports st w en calls e eq_refl eq_refl))))
    end.
Qed.

(** X5: whatever path a creation takes, a record it hands to the Store (taken or
    refused) was assembled after the cipher sealed the provider's key under
    the form's passphrase, and carries that blob; its id is the clock's
    reading and its mnemonic, when the provider gave one, is sealed too. *)
Theorem stored_only_when_sealed st w record :
  let after := snd (dispatch handleCreateWallet (st, w)) in
  let passphrase := CreateWalletForm.passphrase (createWalletForm st) in
  In record (saved (trace (snd after))) ->
  In record (saved (trace w)) \/
  exists response key sealedKey entropy1,
    provider w (CreateWalletForm.network (createWalletForm st)) = Js.Ok response /\
    Generated.key response = Some key /\
    Js.truthy key = true /\
    encryptPrivateKey key passphrase (entropy w) = (Js.Ok sealedKey, entropy1) /\
    Wallet.encryptedPrivateKey record = Some sealedKey /\
    Wallet.address record = Generated.address response /\
    Wallet.id record = Js.toString (now w) /\
    (forall m, Generated.mnemonic response = Some m -> Js.truthy m = true ->
       exists blob entropy2,
         encryptPrivateKey m passphrase entropy1 = (Js.Ok blob, entropy2) /\
         Wallet.encryptedMnemonic record = Some blob).
Proof.
  intros after passphrase Hin. subst after passphrase.
  destruct (handleCreateWallet_handed st w)
    as [Hsame | (response & key & sealedKey & entropy1 & sealedMnemonic & entropy2
                 & Hp & Hk & Hu & Hseal & Hmn & Hsaved)].
  - left. now rewrite <- Hsame.
  - rewrite Hsaved in Hin. apply in_app_or in Hin.
    destruct Hin as [Hold | [<- | []]]; [now left|].
    right. exists response, key, sealedKey, entropy1.
    repeat match goal with |- _ /\ _ => split end; try assumption; try reflexivity.
    intros m Hm Hmt. unfold seals_mnemonic in Hmn. rewrite Hm, Hmt in Hmn.
    destruct Hmn as (blob & Hblob & ->). exists blob, entropy2. now split.
Qed.

(** X6: a manual add ends in one of three ways, and never with an alert or a
    call to the cipher.  Not submitted: nothing at all happens.  Refused by
    the Store: the error goes to the console and the component is exactly as
    it was (dialog open, form filled).  Stored: the record is listed, the
    dialog closes and the form is cleared. *)
Theorem manual_add_all_or_nothing st w :
  let outcome := dispatch handleAddWallet (st, w) in
  let st' := fst (snd outcome) in
  let w' := snd (snd outcome) in
  alerts (trace w') = alerts (trace w) /\
  sealed (trace w') = sealed (trace w) /\
  entropy w' = entropy w /\
  ((add_submitted st w = false /\ outcome = (Js.Ok tt, (st, w))) \/
   (add_submitted st w = true /\
    exists e,
      saveWallet (database w) (entered st w) = Js.Throw e /\
      st' = st /\
      database w' = database w /\
      console_errors (trace w')
      = console_errors (trace w) ++ [("Error saving wallet:", e)]) \/
   (add_submitted st w = true /\
    saveWallet (database w) (entered st w) = Js.Ok (database w') /\
    wallets st' = wallets st ++ [entered st w] /\
    showAddModal st' = false /\
    newWalletForm st' = NewWalletForm.empty /\
    newlyCreatedWallet st' = newlyCreatedWallet st /\
    console_errors (trace w') = console_errors (trace w))).
Proof.
  intros outcome st' w'. subst st' w' outcome.
  destruct (add_submitted st w) eqn:Hsub; unfold add_submitted in Hsub.
  - rewrite !andb_true_iff in Hsub.
    rewrite handleAddWallet_submitted by tauto.
    destruct (saveWallet (database w) (entered st w)) as [database'|e] eqn:Hsave;
      cbn [fst snd trace database wallets entropy showAddModal newWalletForm
           newlyCreatedWallet];
      rewrite !alerts_app, !sealed_app, !console_errors_app; cbn;
      rewrite ?app_nil_r;
      (split; [reflexivity|]); (split; [reflexivity|]); (split; [reflexivity|]);
      right.
    + right. repeat split; reflexivity.
    + left. split; [reflexivity|]. exists e. repeat split; reflexivity.
  - rewrite !andb_false_iff in Hsub.
    rewrite handleAddWallet_not_submitted by tauto.
    repeat split; try reflexivity. left. split; reflexivity.
Qed.

(** What [handleAddWallet] hands to the Store: nothing, or the record
    entered. *)
Lemma handleAddWallet_handed st w :
  let after := snd (dispatch handleAddWallet (st, w)) in
  saved (trace (snd after)) = saved (trace w) \/
  saved (trace (snd after)) = saved (trace w) ++ [entered st w].
Proof.
  cbv zeta.
  destruct (add_submitted st w) eqn:Hsub; unfold add_submitted in Hsub.
  - rewrite !andb_true_iff in Hsub.
    rewrite handleAddWallet_submitted by tauto. right.
    destruct (saveWallet _ _); cbn [fst snd trace]; rewrite !saved_app; reflexivity.
  - rewrite !andb_false_iff in Hsub.
    rewrite handleAddWallet_not_submitted by tauto. now left.
Qed.

(** A record handed to the Store by either form handler is new-born: its id
    is the clock's reading, and it has no change, tokens or transactions. *)
Lemma handed_record_fresh st w (handler : State Blob -> Task unit) record :
  handler = handleAddWallet \/ handler = handleCreateWallet ->
  saved (trace (snd (snd (dispatch handler (st, w))))) = saved (trace w) ++ [record] ->
  Wallet.id record = Js.toString (now w) /\
  Wallet.change24h record = 0%float /\
  Wallet.changePercent24h record = 0%float /\
  Wallet.tokens record = [] /\
  Wallet.transactions record = [].
Proof.
  intros [-> | ->] Hsaved.
  - destruct (handleAddWallet_handed st w) as [Hsame | Hone];
      cbv zeta in *; rewrite Hsaved in *.
    + symmetry in Hsame. now apply not_self_snoc in Hsame.
    + apply app_inv_head in Hone. injection Hone as ->. repeat split.
  - destruct (handleCreateWallet_handed st w)
      as [Hsame | (response & key & sealedKey & entropy1 & sealedMnemonic & entropy2
                   & _ & _ & _ & _ & _ & Hone)];
      cbv zeta in *; rewrite Hsaved in *.
    + symmetry in Hsame. now apply not_self_snoc in Hsame.
    + apply app_inv_head in Hone. injection Hone as ->. repeat split.
Qed.

Lemma toString_injective (a b : Z) : Js.toString a = Js.toString b -> a = b.
Proof.
  assert (Hproper : forall z, Z.to_int z <> Decimal.Pos Decimal.Nil /\
                              Z.to_int z <> Decimal.Neg Decimal.Nil).
  { intros [|p|p]; cbn; split; try discriminate;
      intros [= H]; now apply (Unsigned.to_uint_nonnil p). }
  unfold Js.toString. intros H.
  apply (f_equal NilZero.int_of_string) in H.
  rewrite !NilZero.isi in H by apply Hproper.
  injection H as H. now apply DecimalZ.to_int_inj.
Qed.

(** X7: identifiers follow the clock: two records handed to the Store, by either
    handler, have the same id exactly when they were made at the same
    reading of [Date.now()]. *)
Theorem record_ids_follow_clock st1 w1 st2 w2
    (handler1 handler2 : State Blob -> Task unit) record1 record2 :
  handler1 = handleAddWallet \/ handler1 = handleCreateWallet ->
  handler2 = handleAddWallet \/ handler2 = handleCreateWallet ->
  saved (trace (snd (snd (dispatch handler1 (st1, w1))))) = saved (trace w1) ++ [record1] ->
  saved (trace (snd (snd (dispatch handler2 (st2, w2))))) = saved (trace w2) ++ [record2] ->
  (Wallet.id record1 = Wallet.id record2 <-> now w1 = now w2).
Proof.
  intros H1 H2 Hs1 Hs2.
  destruct (handed_record_fresh st1 w1 handler1 record1 H1 Hs1) as [-> _].
  destruct (handed_record_fresh st2 w2 handler2 record2 H2 Hs2) as [-> _].
  split; [apply toString_injective | now intros ->].
Qed.

End Paths.

(** ** More on the portfolio figures *)

Section Figures.

Context {Blob : Type}.
Implicit Types (records : list (Wallet.t Blob)).

Lemma add_nan_l (x : float) : (nan + x)%float = nan.
Proof.
  apply Prim2SF_inj. rewrite add_spec. reflexivity.
Qed.

Lemma add_nan_r (x : float) : (x + nan)%float = nan.
Proof.
  apply Prim2SF_inj. rewrite add_spec.
  unfold SF64add. now destruct (Prim2SF x).
Qed.

(** A number above 0 divides 0 into 0, and taking 0 from it changes
    nothing. *)
Lemma zero_over_positive (b : float) :
  (0 <? b)%float = true -> (0 / (b - 0) * 100)%float = 0%float.
Proof.
  intros Hpos. rewrite ltb_spec in Hpos.
  apply Prim2SF_inj. rewrite mul_spec, div_spec, sub_spec.
  change (Prim2SF 0) with (S754_zero false) in *.
  destruct (Prim2SF b) as [s | s | | s m e]; try discriminate;
    destruct s; try discriminate; reflexivity.
Qed.

Lemma reduce_nan (field : Wallet.t Blob -> Js.number) records :
  fold_left (fun sum wallet => (sum + field wallet)%float) records nan = nan.
Proof.
  induction records as [|r records IH]; cbn; [reflexivity|].
  now rewrite add_nan_l.
Qed.

Lemma reduce_meets_nan (field : Wallet.t Blob -> Js.number) records (start : float) :
  Exists (fun r => field r = nan) records ->
  fold_left (fun sum wallet => (sum + field wallet)%float) records start = nan.
Proof.
  intros Hex. revert start.
  induction Hex as [r records Hr | r records _ IH]; intros start; cbn.
  - rewrite Hr, add_nan_r. apply reduce_nan.
  - apply IH.
Qed.

Lemma reduce_zeros (field : Wallet.t Blob -> Js.number) records :
  Forall (fun r => field r = 0%float) records ->
  fold_left (fun sum wallet => (sum + field wallet)%float) records 0%float = 0%float.
Proof.
  induction 1 as [|r records Hr _ IH]; cbn; [reflexivity|].
  rewrite Hr. exact IH.
Qed.

(** X8: while no wallet has moved (every [change24h] is 0), the total change is
    0 and so is the percentage, whatever the balances are: the division
    cannot go wrong. *)
Theorem no_change_no_percent records :
  Forall (fun r => Wallet.change24h r = 0%float) records ->
  totalChange records = 0%float /\ totalChangePercent records = 0%float.
Proof.
  intros Hzero.
  assert (Hchange : totalChange records = 0%float) by now apply reduce_zeros.
  split; [exact Hchange|].
  unfold totalChangePercent. rewrite Hchange.
  destruct (0 <? totalBalance records)%float eqn:Hpos; [|reflexivity].
  now apply zero_over_positive.
Qed.

(** X9: one balance that is [NaN] makes the total [NaN], wherever it stands in
    the list and whatever the others are; the percentage then shows 0. *)
Theorem nan_balance_poisons_total records :
  Exists (fun r => Wallet.balanceUSD r = nan) records ->
  totalBalance records = nan /\ totalChangePercent records = 0%float.
Proof.
  intros Hex.
  assert (Htotal : totalBalance records = nan) by now apply reduce_meets_nan.
  split; [exact Htotal|].
  unfold totalChangePercent. now rewrite Htotal.
Qed.

End Figures.

(** ** The handlers and the figures together *)

Section Composition.

Context {Blob Db Entropy : Type}.
Context {crypto : Crypto Blob Entropy} {accountDb : AccountDb Blob Db}.
Implicit Types (st : State Blob) (w : World Blob Db Entropy).

(** What either form handler does to the list: nothing, or one new-born
    record at the end. *)
Lemma handlers_list st w (handler : State Blob -> Task unit) :
  handler = handleAddWallet \/ handler = handleCreateWallet ->
  let after := snd (dispatch handler (st, w)) in
  wallets (fst after) = wallets st \/
  exists record,
    wallets (fst after) = wallets st ++ [record] /\
    saveWallet (database w) record = Js.Ok (database (snd after)) /\
    Wallet.id record = Js.toString (now w) /\
    Wallet.change24h record = 0%float.
Proof.
  intros Hhandler after.
  assert (Hcases : one_insert_at_most st w after).
  { subst after. destruct Hhandler as [-> | ->];
      [apply handleAddWallet_cases | apply handleCreateWallet_cases]. }
  destruct Hcases as [(_ & _ & Hsame) | (record & Hsaved & Hrest)]; [now left|].
  destruct (handed_record_fresh st w handler record Hhandler Hsaved)
    as (Hid & Hchange & _).
  destruct (saveWallet (database w) record) as [database'|e] eqn:Hsave.
  - right. exists record. destruct Hrest as [<- Hlist]. auto.
  - left. apply Hrest.
Qed.

(** X10: the page itself never lists a wallet that has moved: if every wallet on
    the list has [change24h] 0, then after a manual add or a creation this is
    still so, and the percentage shown is 0. *)
Theorem handlers_keep_percent_zero st w (handler : State Blob -> Task unit) :
  handler = handleAddWallet \/ handler = handleCreateWallet ->
  Forall (fun r => Wallet.change24h r = 0%float) (wallets st) ->
  let st' := fst (snd (dispatch handler (st, w))) in
  Forall (fun r => Wallet.change24h r = 0%float) (wallets st') /\
  totalChange (wallets st') = 0%float /\
  totalChangePercent (wallets st') = 0%float.
Proof.
  intros Hhandler Hzero st'.
  assert (Hstill : Forall (fun r => Wallet.change24h r = 0%float) (wallets st')).
  { subst st'.
    destruct (handlers_list st w handler Hhandler)
      as [-> | (record & -> & _ & _ & Hchange)]; [assumption|].
    apply Forall_app. split; [assumption | now constructor]. }
  split; [exact Hstill|].
  assert (Hchange : totalChange (wallets st') = 0%float)
    by now apply reduce_zeros.
  split; [exact Hchange|].
  unfold totalChangePercent. rewrite Hchange.
  destruct (0 <? totalBalance (wallets st'))%float eqn:Hpos; [|reflexivity].
  now apply zero_over_positive.
Qed.

(** X11: a manual add whose balanceUSD text [parseFloat] cannot read is stored
    all the same, and from then on the portfolio total is [NaN] and the
    percentage 0. *)
Theorem unparsable_balance_poisons_portfolio st w database' :
  add_submitted st w = true ->
  Js.parseFloat (NewWalletForm.balanceUSD (newWalletForm st)) = nan ->
  saveWallet (database w) (entered st w) = Js.Ok database' ->
  let st' := fst (snd (dispatch handleAddWallet (st, w))) in
  wallets st' = wallets st ++ [entered st w] /\
  totalBalance (wallets st') = nan /\
  totalChangePercent (wallets st') = 0%float.
Proof.
  intros Hsub Hnan Hsave st'. subst st'.
  unfold add_submitted in Hsub. rewrite !andb_true_iff in Hsub.
  rewrite handleAddWallet_submitted by tauto. rewrite Hsave.
  cbn [fst snd wallets].
  split; [reflexivity|].
  assert (Htotal : totalBalance (wallets st ++ [entered st w]) = nan).
  { apply reduce_meets_nan. apply Exists_app. right. now constructor. }
  split; [exact Htotal|].
  unfold totalChangePercent. now rewrite Htotal.
Qed.

(** X12: the loading effect ends in one of three ways.  Without a database it
    does nothing.  When the read fails, the error goes to the console, no
    alert is shown and the list stays as it was.  When it succeeds, the list
    is replaced by what was read, and nothing else of the component changes
    (the selected wallet is not refreshed). *)
Theorem loadWallets_outcome st w :
  let outcome := loadWallets (st, w) in
  let st' := fst (snd outcome) in
  let w' := snd (snd outcome) in
  (db w = false /\ outcome = (Js.Ok tt, (st, w))) \/
  (db w = true /\
   exists e,
     getAllWallets (database w) = Js.Throw e /\
     st' = st /\
     database w' = database w /\
     alerts (trace w') = alerts (trace w) /\
     console_errors (trace w')
     = console_errors (trace w) ++ [("Error loading wallets:", e)]) \/
  (db w = true /\
   exists loaded,
     getAllWallets (database w) = Js.Ok loaded /\
     wallets st' = loaded /\
     selectedWallet st' = selectedWallet st /\
     newlyCreatedWallet st' = newlyCreatedWallet st /\
     database w' = database w /\
     saved (trace w') = saved (trace w) /\
     alerts (trace w') = alerts (trace w) /\
     console_errors (trace w') = console_errors (trace w)).
Proof.
  cbv zeta.
  unfold loadWallets, bind, try_catch, useAccountStore_db, getAll, setWallets,
    console_error, emit, modify, ret. cbn.
  destruct (db w) eqn:Hdb; cbn; [|now left].
  right.
  destruct (getAllWallets (database w)) as [loaded|e] eqn:Hload; cbn.
  - right. split; [reflexivity|]. exists loaded.
    unfold saved, alerts, console_errors. rewrite !flat_map_app. cbn.
    rewrite !app_nil_r. repeat split; reflexivity.
  - left. split; [reflexivity|]. exists e.
    unfold alerts, console_errors. rewrite <- !app_assoc, !flat_map_app. cbn.
    rewrite !app_nil_r. repeat split; reflexivity.
Qed.


End Composition.

(** ** Addresses on display *)

Lemma list_ascii_of_string_app (a b : string) :
  list_ascii_of_string (a ++ b)%string
  = (list_ascii_of_string a ++ list_ascii_of_string b)%list.
Proof.
  induction a as [|c a IH]; cbn; [reflexivity | now rewrite IH].
Qed.

Lemma string_of_list_ascii_app (l1 l2 : list ascii) :
  string_of_list_ascii (l1 ++ l2)%list
  = (string_of_list_ascii l1 ++ string_of_list_ascii l2)%string.
Proof.
  induction l1 as [|c l1 IH]; cbn; [reflexivity | now rewrite IH].
Qed.

Lemma length_list_ascii_of_string (s : string) :
  List.length (list_ascii_of_string s) = String.length s.
Proof.
  induction s as [|c s IH]; cbn; [reflexivity | now rewrite IH].
Qed.

(** [s.slice(0, k)] is the first [k] characters, or all of them. *)
Lemma slice_front (s : string) (k : nat) :
  JsString.slice s 0%Z (Some (Z.of_nat k))
  = string_of_list_ascii (firstn k (list_ascii_of_string s)).
Proof.
  unfold JsString.slice, JsString.clamp.
  set (chars := list_ascii_of_string s). set (n := List.length chars).
  replace (0 <? 0)%Z with false by reflexivity.
  replace (Z.of_nat k <? 0)%Z with false by (symmetry; apply Z.ltb_ge; lia).
  replace (Z.min 0 (Z.of_nat n)) with 0%Z by lia.
  cbn [Z.to_nat skipn]. f_equal.
  destruct (Nat.le_gt_cases n k) as [Hshort | Hlong].
  - replace (Z.to_nat (Z.min (Z.of_nat k) (Z.of_nat n) - 0)) with n by lia.
    now rewrite !firstn_all2 by (fold n; lia).
  - replace (Z.to_nat (Z.min (Z.of_nat k) (Z.of_nat n) - 0)) with k by lia.
    reflexivity.
Qed.

(** [s.slice(-k)] is the last [k] characters, or all of them. *)
Lemma slice_back (s : string) (k : nat) :
  (0 < k)%nat ->
  JsString.slice s (- Z.of_nat k)%Z None
  = string_of_list_ascii
      (skipn (List.length (list_ascii_of_string s) - k) (list_ascii_of_string s)).
Proof.
  intros Hk. unfold JsString.slice, JsString.clamp.
  set (chars := list_ascii_of_string s). set (n := List.length chars).
  replace (- Z.of_nat k <? 0)%Z with true by (symmetry; apply Z.ltb_lt; lia).
  replace (Z.to_nat (Z.max (Z.of_nat n + - Z.of_nat k) 0)) with (n - k)%nat by lia.
  f_equal. apply firstn_all2. rewrite length_skipn. fold n. lia.
Qed.

(** The two slices of [formatAddress]: up to six characters from the front
    and up to four from the back. *)
Lemma formatAddress_parts (address : string) :
  let chars := list_ascii_of_string address in
  formatAddress address
  = (string_of_list_ascii (firstn 6 chars) ++ "..."
     ++ string_of_list_ascii (skipn (List.length chars - 4) chars))%string.
Proof.
  intros chars. unfold formatAddress.
  change 6%Z with (Z.of_nat 6). change (-4)%Z with (- Z.of_nat 4)%Z.
  rewrite slice_front, slice_back by lia. reflexivity.
Qed.



(** ** The further properties on sample inputs *)

Lemma creation_alert_or_dialog_witness :
  isCreatingWallet
    (fst (snd (dispatch handleCreateWallet
                 (Sample.creating [], Sample.world [] Sample.keyless)))) = false /\
  showSuccessModal
    (fst (snd (dispatch handleCreateWallet
                 (Sample.creating [], Sample.world [] Sample.generated)))) = true.
Proof.
  split.
  - apply (creation_alert_or_dialog (Sample.creating []) (Sample.world [] Sample.keyless)).
    reflexivity.
  - destruct (creation_alert_or_dialog
                (Sample.creating []) (Sample.world [] Sample.generated) eq_refl)
      as (_ & [(e & Halert & _) | (_ & _ & _ & _ & Hdialog & _)]).
    + vm_compute in Halert. destruct e; discriminate.
    + exact Hdialog.
Defined.

Lemma provider_failure_is_shown_witness :
  alerts (trace (snd (snd (dispatch handleCreateWallet
                             (Sample.creating [], Trial.offline [])))))
  = ["Error creating wallet2: Unknown error"].
Proof.
  destruct (provider_failure_is_shown
              (Sample.creating []) (Trial.offline []) (Js.Thrown "timeout")
              eq_refl eq_refl)
    as (Htrace & _).
  rewrite Htrace. reflexivity.
Defined.

Lemma cipher_failure_stores_nothing_witness :
  let outcome :=
    @dispatch Box.t (Store.t Box.t) nat
      (@handleCreateWallet Box.t (Store.t Box.t) nat Trial.jammed _)
      (Sample.creating [], Sample.world [] Sample.generated) in
  database (snd (snd outcome)) = [] /\
  alerts (trace (snd (snd outcome))) = ["Error creating wallet2: cipher gave out"].
Proof.
  destruct (@cipher_failure_stores_nothing Box.t (Store.t Box.t) nat Trial.jammed _
              (Sample.creating []) (Sample.world [] Sample.generated)
              Sample.generated "k1" (Js.Error "cipher gave out") 1%nat
              eq_refl eq_refl eq_refl eq_refl)
    as ((_ & Hdb & _) & Halerts & _).
  - right. exists (Box.mk 0 "k1" "pw123"), 1%nat,
      "m1 m2 m3 m4 m5 m6 m7 m8 m9 m10 m11 m12".
    repeat split; reflexivity.
  - split; [exact Hdb | exact Halerts].
Defined.

Lemma stored_only_when_sealed_witness :
  exists sealedKey,
    Wallet.encryptedPrivateKey Sample.created = Some sealedKey /\
    Box.content sealedKey = "k1" /\ Box.lock sealedKey = "pw123".
Proof.
  destruct (stored_only_when_sealed
              (Sample.creating []) (Sample.world [] Sample.generated) Sample.created)
    as [[] | (response & key & sealedKey & entropy1 & Hp & Hk & _ & Hseal & Hblob & _)].
  - left. reflexivity.
  - exists sealedKey. split; [exact Hblob|].
    injection Hp as <-. injection Hk as <-. injection Hseal as <- _.
    split; reflexivity.
Defined.

Lemma record_ids_follow_clock_witness :
  Wallet.id Sample.added = Wallet.id Sample.created /\
  Wallet.id Sample.created
  <> Wallet.id (assembled (Sample.creating []) (Trial.later [] Sample.generated)
                  Sample.generated (Box.mk 0 "k1" "pw123")
                  (Some (Box.mk 1 "m1 m2 m3 m4 m5 m6 m7 m8 m9 m10 m11 m12" "pw123"))).
Proof.
  split.
  - apply (record_ids_follow_clock
             (Sample.adding [] "1.5" "300.00") (Sample.world [] Sample.generated)
             (Sample.creating []) (Sample.world [] Sample.generated)
             handleAddWallet handleCreateWallet Sample.added Sample.created);
      [now left | now right | reflexivity | reflexivity | reflexivity].
  - intros Hsame.
    apply (record_ids_follow_clock
             (Sample.creating []) (Sample.world [] Sample.generated)
             (Sample.creating []) (Trial.later [] Sample.generated)
             handleCreateWallet handleCreateWallet Sample.created
             (assembled (Sample.creating []) (Trial.later [] Sample.generated)
                Sample.generated (Box.mk 0 "k1" "pw123")
                (Some (Box.mk 1 "m1 m2 m3 m4 m5 m6 m7 m8 m9 m10 m11 m12" "pw123"))))
      in Hsame; [discriminate | now right | now right | reflexivity | reflexivity].
Defined.

Lemma no_change_no_percent_witness :
  totalChange Trial.still = 0%float /\ totalChangePercent Trial.still = 0%float.
Proof.
  apply no_change_no_percent. repeat constructor.
Defined.

Lemma nan_balance_poisons_total_witness :
  totalBalance Trial.spoiled = nan /\ totalChangePercent Trial.spoiled = 0%float.
Proof.
  apply nan_balance_poisons_total.
  apply Exists_cons_tl. apply Exists_cons_hd. reflexivity.
Defined.

Lemma handlers_keep_percent_zero_witness :
  totalChangePercent
    (wallets (fst (snd (dispatch handleCreateWallet
                          (Sample.creating Trial.still,
                           Sample.world Trial.still Sample.generated))))) = 0%float.
Proof.
  apply (handlers_keep_percent_zero
           (Sample.creating Trial.still) (Sample.world Trial.still Sample.generated)
           handleCreateWallet).
  - right. reflexivity.
  - repeat constructor.
Defined.

Lemma unparsable_balance_poisons_portfolio_witness :
  totalBalance
    (wallets (fst (snd (dispatch handleAddWallet
                          (Sample.adding Trial.still "1" "abc",
                           Sample.world Trial.still Sample.generated))))) = nan.
Proof.
  apply (unparsable_balance_poisons_portfolio
           (Sample.adding Trial.still "1" "abc")
           (Sample.world Trial.still Sample.generated)
           (Trial.still ++ [entered (Sample.adding Trial.still "1" "abc")
                              (Sample.world Trial.still Sample.generated)]));
    reflexivity.
Defined.

(** The Store of the spec lists its records in insertion order. *)
Lemma Store_lists_in_insertion_order (Blob : Type) :
  @lists_in_insertion_order Blob (Store.t Blob) (Store_AccountDb Blob).
Proof.
  intros d d' record listed Hsave Hlist. cbn in *.
  unfold Store.insert in Hsave. unfold Store.listAll in *.
  destruct (Store.has_id d (Wallet.id record)); [discriminate|].
  injection Hsave as <-. injection Hlist as <-. reflexivity.
Qed.



